(** * sense2vec: the spaCy pipeline component [Sense2VecComponent]

    A shallow embedding of [sense2vec/component.py].  Python objects live in
    heaps (documents, Sense2Vec stores, components) and are named by their
    index; methods are computations in a state monad whose state survives a
    raised exception, as a Python heap does. *)

From Stdlib Require Import ZArith Ascii String.
From stdpp Require Import gmap strings list.

Local Open Scope string_scope.
Local Open Scope list_scope.

(** ** Python exceptions *)

(** The three classes spaCy's extension mechanism is registered on. *)
Inductive Kind := KDoc | KToken | KSpan.

#[global] Instance Kind_eq_dec : EqDecision Kind.
Proof. solve_decision. Defined.

Inductive exn :=
| AttributeError_NoneType (attr : string)
    (* 'NoneType' object has no attribute attr *)
| AttributeError_E046 (k : Kind) (name : string)
    (* spaCy E046: the extension name is not registered on the class k *)
| ValueError_E090 (k : Kind) (name : string)
    (* spaCy E090: set_extension on a name that already exists, no force *)
| KeyNotFound (key : string)
    (* the store has no row for the key *)
| UnresolvableSense
    (* the key codec found neither an entity label nor a tag *)
| InvalidKey (key : string)
    (* split_key on a string without separator *)
| StoreLoadError
    (* the store could not read a serialized payload *)
| InvalidArgument
    (* named by the specification; no code path of the component raises it *)
| TypeError_NoneType (op : string)
    (* an operator applied to None: membership test or subscript *)
| ReferenceError (ref : nat).
    (* a heap index that names no object; unreachable from Python *)

#[global] Instance exn_eq_dec : EqDecision exn.
Proof. solve_decision. Defined.

Inductive result (A : Type) :=
| Ok (a : A)
| Raise (e : exn).
Arguments Ok {A} a.
Arguments Raise {A} e.

Definition is_Ok {A} (r : result A) : bool :=
  match r with Ok _ => true | Raise _ => false end.

Definition result_bind {A B} (r : result A) (f : A -> result B) : result B :=
  match r with Ok a => f a | Raise e => Raise e end.

(** ** ASCII case mapping and the key codec's text normalisation *)

Definition upper_ascii (c : ascii) : ascii :=
  let n := nat_of_ascii c in
  if (97 <=? n)%nat && (n <=? 122)%nat then ascii_of_nat (n - 32) else c.

Definition lower_ascii (c : ascii) : ascii :=
  let n := nat_of_ascii c in
  if (65 <=? n)%nat && (n <=? 90)%nat then ascii_of_nat (n + 32) else c.

Definition is_space (c : ascii) : bool :=
  let n := nat_of_ascii c in
  (n =? 32)%nat || ((9 <=? n)%nat && (n <=? 13)%nat).

Definition sep : ascii := "|"%char.

Fixpoint string_map (f : ascii -> ascii) (s : string) : string :=
  match s with
  | EmptyString => EmptyString
  | String c r => String (f c) (string_map f r)
  end.

Definition upper (s : string) : string := string_map upper_ascii s.
Definition lower (s : string) : string := string_map lower_ascii s.

Fixpoint strip_sep (s : string) : string :=
  match s with
  | EmptyString => EmptyString
  | String c r => if Ascii.eqb c sep then strip_sep r else String c (strip_sep r)
  end.

(** Every maximal run of whitespace becomes one underscore. *)
Fixpoint collapse_ws (in_run : bool) (s : string) : string :=
  match s with
  | EmptyString => EmptyString
  | String c r =>
      if is_space c
      then (if in_run then collapse_ws true r else String "_"%char (collapse_ws true r))
      else String c (collapse_ws false r)
  end.

(** Modelled from the spec: the key codec's text normalisation (section 4.1,
    the codec itself is [util.make_spacy_key] and [Sense2Vec.make_key], which
    are not part of the component's source file): lower-cased, whitespace
    collapsed to single underscores, the separator stripped. *)
Definition normalize_text (s : string) : string :=
  collapse_ws false (strip_sep (lower s)).

(** Split at the last occurrence of the separator. *)
Fixpoint rsplit_sep (s : string) : option (string * string) :=
  match s with
  | EmptyString => None
  | String c r =>
      match rsplit_sep r with
      | Some (a, b) => Some (String c a, b)
      | None => if Ascii.eqb c sep then Some (EmptyString, r) else None
      end
  end.

Fixpoint has_sep (s : string) : bool :=
  match s with
  | EmptyString => false
  | String c r => Ascii.eqb c sep || has_sep r
  end.

(** ** spaCy's object model, as far as the component touches it *)

(** How an extension attribute was declared: [default=None], [getter=] or
    [method=]; the function is recorded by name, with the component it is
    bound to when it is a bound method. *)
Inductive ExtSpec :=
| ExtDefault
| ExtGetter (owner : option nat) (fn : string)
| ExtMethod (owner : option nat) (fn : string).

(** One entry of [Underscore.doc_extensions], [token_extensions] or
    [span_extensions]. *)
Record Extension := mkExt {
  ext_kind : Kind;
  ext_name : string;
  ext_spec : ExtSpec
}.

(** A [Doc]: its words, and the value held in the slot [doc._._s2v]
    ([None] while nothing was assigned: the extension's default). *)
Record Doc := mkDoc {
  doc_words : list string;
  _s2v : option nat
}.

(** A [Token] or a [Span]: a view on a document. *)
Record Obj := mkObj {
  is_span : bool;
  doc : nat;
  text : string;
  pos_ : string;
  label_ : option string
}.

Definition kind_of (o : Obj) : Kind := if is_span o then KSpan else KToken.

Record Vocab := mkVocab { vocab_strings : list string }.

Section Component.

(** [numpy.ndarray] rows and [float] scores are opaque to the component. *)
Context {Vector Score : Type}.

(** ** The vector store [Sense2Vec] *)

Record Sense2Vec := mkS2V {
  shape : Z * Z;
  strings : list string;
  vectors : gmap string Vector;
  freqs : gmap string Z
}.

(** The decoded content of a serialized store; the string table is a
    section of its own that the writer may leave out. *)
Record Msg := mkMsg {
  msg_shape : Z * Z;
  msg_vectors : gmap string Vector;
  msg_freqs : gmap string Z;
  msg_strings : option (list string)
}.

(** Modelled from the spec: [Sense2Vec(shape, strings)] of
    [sense2vec/sense2vec.py] (section 4.2, construct: an empty store of the
    given dimensionality; without a shared table it owns a fresh one). *)
Definition Sense2Vec_new (shp : Z * Z) (strs : option (list string)) : Sense2Vec :=
  {| shape := shp; strings := default [] strs; vectors := ∅; freqs := ∅ |}.

(** Modelled from the spec: [Sense2Vec.__contains__] (section 6, contains). *)
Definition Sense2Vec_contains (s : Sense2Vec) (key : string) : bool :=
  bool_decide (is_Some (vectors s !! key)).

(** Modelled from the spec: [Sense2Vec.__getitem__] (sections 4.2 and 7: a
    key absent from the store is the hard error KeyNotFound). *)
Definition Sense2Vec_getitem (s : Sense2Vec) (key : string) : result Vector :=
  match vectors s !! key with
  | Some v => Ok v
  | None => Raise (KeyNotFound key)
  end.

(** Modelled from the spec: [Sense2Vec.get_freq] (section 4.2, frequencyOf:
    same requirements as vectorOf, the stored count). *)
Definition Sense2Vec_get_freq (s : Sense2Vec) (key : string) : result Z :=
  match freqs s !! key with
  | Some n => Ok n
  | None => Raise (KeyNotFound key)
  end.

(** Modelled from the spec: [Sense2Vec.make_key] (section 4.1, output
    format: text, separator, sense). *)
Definition Sense2Vec_make_key (s : Sense2Vec) (txt sense : string) : string :=
  txt +:+ String sep sense.

(** Modelled from the spec: [Sense2Vec.split_key] (section 4.1, decode:
    split on the last occurrence of the separator). *)
Definition Sense2Vec_split_key (s : Sense2Vec) (key : string) : result (string * string) :=
  match rsplit_sep key with
  | Some p => Ok p
  | None => Raise (InvalidKey key)
  end.

(** Modelled from the spec: [Sense2Vec.to_bytes(exclude)] (section 6:
    serialize(excluding: string table)). *)
Definition Sense2Vec_to_msg (s : Sense2Vec) (exclude : list string) : Msg :=
  {| msg_shape := shape s;
     msg_vectors := vectors s;
     msg_freqs := freqs s;
     msg_strings := if bool_decide ("strings" ∈ exclude) then None else Some (strings s) |}.

(** Modelled from the spec: the effect of [Sense2Vec.from_bytes(exclude)] on
    the receiver (section 6: deserialize(excluding: string table)); an
    excluded or missing string section leaves the receiver's own table. *)
Definition Sense2Vec_of_msg (s : Sense2Vec) (m : Msg) (exclude : list string) : Sense2Vec :=
  {| shape := msg_shape m;
     strings := if bool_decide ("strings" ∈ exclude) then strings s
                else default (strings s) (msg_strings m);
     vectors := msg_vectors m;
     freqs := msg_freqs m |}.

(** The byte-level encoding of a message ([srsly.msgpack_dumps] and
    [msgpack_loads]) and the store's two search queries are taken as
    given. *)
Context (msgpack_dumps : Msg -> list Byte.byte).
Context (msgpack_loads : list Byte.byte -> option Msg).
Context (Sense2Vec_most_similar :
  Sense2Vec -> list string -> Z -> result (list (string * Score))).
Context (Sense2Vec_get_other_senses : Sense2Vec -> string -> result (list string)).

Definition Sense2Vec_to_bytes (s : Sense2Vec) (exclude : list string) : list Byte.byte :=
  msgpack_dumps (Sense2Vec_to_msg s exclude).

Definition Sense2Vec_from_bytes (s : Sense2Vec) (data : list Byte.byte)
    (exclude : list string) : result Sense2Vec :=
  match msgpack_loads data with
  | Some m => Ok (Sense2Vec_of_msg s m exclude)
  | None => Raise StoreLoadError
  end.

(** ** The component object and the Python heap *)

Record Sense2VecComponent := mkComp {
  s2v : nat;
  first_run : bool;
  merge_phrases : bool
}.

Record World := mkWorld {
  extensions : list Extension;
  docs : list Doc;
  stores : list Sense2Vec;
  components : list Sense2VecComponent;
  disk : gmap string Msg
}.

Definition set_extensions (w : World) (es : list Extension) : World :=
  mkWorld es (docs w) (stores w) (components w) (disk w).
Definition set_docs (w : World) (ds : list Doc) : World :=
  mkWorld (extensions w) ds (stores w) (components w) (disk w).
Definition set_stores (w : World) (ss : list Sense2Vec) : World :=
  mkWorld (extensions w) (docs w) ss (components w) (disk w).
Definition set_components (w : World) (cs : list Sense2VecComponent) : World :=
  mkWorld (extensions w) (docs w) (stores w) cs (disk w).
Definition set_disk (w : World) (d : gmap string Msg) : World :=
  mkWorld (extensions w) (docs w) (stores w) (components w) d.

(** A computation reads and changes the heap and returns or raises; what
    it changed before raising stays changed. *)
Definition M (A : Type) : Type := World -> result A * World.

#[global] Instance M_ret : MRet M := fun A a w => (Ok a, w).
#[global] Instance M_bind : MBind M := fun A B f m w =>
  match m w with
  | (Ok a, w') => f a w'
  | (Raise e, w') => (Raise e, w')
  end.
#[global] Instance M_throw : MThrow exn M := fun A e w => (Raise e, w).

Definition get_world : M World := fun w => (Ok w, w).
Definition modify_world (f : World -> World) : M unit := fun w => (Ok tt, f w).
Definition lift_result {A} (r : result A) : M A := fun w => (r, w).

(** Dereference a heap index. *)
Definition deref {A} (heap : World -> list A) (r : nat) : M A :=
  w ← get_world;
  match heap w !! r with
  | Some a => mret a
  | None => mthrow (ReferenceError r)
  end.

(** ** spaCy: extension attributes *)

Definition has_extension (es : list Extension) (k : Kind) (name : string) : bool :=
  existsb (fun e => bool_decide (ext_kind e = k) && bool_decide (ext_name e = name)) es.

(** [cls.set_extension(name, ...)] without [force]. *)
Definition set_extension (k : Kind) (name : string) (spec : ExtSpec) : M unit :=
  w ← get_world;
  if has_extension (extensions w) k name
  then mthrow (ValueError_E090 k name)
  else modify_world (fun w => set_extensions w (extensions w ++ [mkExt k name spec])).

(** Reading [d._._s2v] on a document. *)
Definition Doc_get__s2v (d : nat) : M (option nat) :=
  w ← get_world;
  if has_extension (extensions w) KDoc "_s2v"
  then dd ← deref docs d; mret (_s2v dd)
  else mthrow (AttributeError_E046 KDoc "_s2v").

(** The assignment [d._._s2v = r]. *)
Definition Doc_set__s2v (d : nat) (r : nat) : M unit :=
  w ← get_world;
  if has_extension (extensions w) KDoc "_s2v"
  then dd ← deref docs d;
       modify_world (fun w => set_docs w (<[d := mkDoc (doc_words dd) (Some r)]> (docs w)))
  else mthrow (AttributeError_E046 KDoc "_s2v").

(** Reading [obj._._s2v] on a token or span.  Nothing in the program assigns
    such a slot, so a registered one holds its default. *)
Definition Obj_get__s2v (o : Obj) : M (option nat) :=
  w ← get_world;
  if has_extension (extensions w) (kind_of o) "_s2v"
  then mret None
  else mthrow (AttributeError_E046 (kind_of o) "_s2v").

(** Attribute access [v.attr] where [v] is a store or Python's [None]. *)
Definition getattr_store (v : option nat) (attr : string) : M nat :=
  match v with
  | None => mthrow (AttributeError_NoneType attr)
  | Some r => mret r
  end.

(** An operator ([in], subscript) applied to a store or to [None]. *)
Definition operand_store (v : option nat) (op : string) : M nat :=
  match v with
  | None => mthrow (TypeError_NoneType op)
  | Some r => mret r
  end.

(** Call a method of the store object [r] that only reads it. *)
Definition call_store {A} (r : nat) (f : Sense2Vec -> result A) : M A :=
  st ← deref stores r;
  lift_result (f st).

Definition alloc_store (s : Sense2Vec) : M nat :=
  w ← get_world;
  modify_world (fun w => set_stores w (stores w ++ [s]));;
  mret (length (stores w)).

Definition alloc_component (c : Sense2VecComponent) : M nat :=
  w ← get_world;
  modify_world (fun w => set_components w (components w ++ [c]));;
  mret (length (components w)).

Fixpoint for_each {A} (l : list A) (body : A -> M unit) : M unit :=
  match l with
  | [] => mret tt
  | a :: l' => body a;; for_each l' body
  end.

Fixpoint map_M {A B} (f : A -> M B) (l : list A) : M (list B) :=
  match l with
  | [] => mret []
  | a :: l' => b ← f a; bs ← map_M f l'; mret (b :: bs)
  end.

(** ** The collaborators in [sense2vec/util.py] *)

(** The phrase merger [util.merge_phrases] takes a document and returns a
    document; it works on documents only and is otherwise taken as given. *)
Context (util_merge_phrases : list Doc -> nat -> list Doc * nat).

Definition merge_phrases_call (d : nat) : M nat :=
  fun w => let '(ds, d') := util_merge_phrases (docs w) d in (Ok d', set_docs w ds).

Definition resolved_sense (o : Obj) (prefer_ents : bool) : string :=
  match label_ o with
  | Some l => if prefer_ents then upper l else upper (pos_ o)
  | None => upper (pos_ o)
  end.

(** Modelled from the spec: [util.make_spacy_key(obj, make_key, prefer_ents)]
    (section 4.1, encode: the entity label when entities are preferred and
    the object has one, else the coarse tag, uppercased; an empty sense is
    the error UnresolvableSense; the text normalised). *)
Definition make_spacy_key (o : Obj) (make_key : string -> string -> string)
    (prefer_ents : bool) : result string :=
  let sense := resolved_sense o prefer_ents in
  if bool_decide (sense = "") then Raise UnresolvableSense
  else Ok (make_key (normalize_text (text o)) sense).

(** The shape of a store built without arguments, [Sense2Vec()]. *)
Context (default_shape : Z * Z).

(** ** [Sense2VecComponent] *)

Definition set_first_run (self : nat) (b : bool) : M unit :=
  c ← deref components self;
  modify_world (fun w =>
    set_components w (<[self := mkComp (s2v c) b (merge_phrases c)]> (components w))).

Definition set_s2v (self : nat) (r : nat) : M unit :=
  c ← deref components self;
  modify_world (fun w =>
    set_components w (<[self := mkComp r (first_run c) (merge_phrases c)]> (components w))).

Definition __init__ (vocab : option Vocab) (shp : Z * Z) (merge : bool) : M nat :=
  let strs := vocab_strings <$> vocab in
  r ← alloc_store (Sense2Vec_new shp strs);
  alloc_component (mkComp r true merge).

(** [from_nlp(cls, nlp)]: the component over the pipeline's vocabulary. *)
Definition from_nlp (nlp_vocab : Vocab) (shp : Z * Z) (merge : bool) : M nat :=
  __init__ (Some nlp_vocab) shp merge.

(** The body of the loop [for obj in [Token, Span]]. *)
Definition register_accessors (self : nat) (k : Kind) : M unit :=
  set_extension k "s2v_key" (ExtGetter (Some self) "s2v_key");;
  set_extension k "in_s2v" (ExtGetter (Some self) "in_s2v");;
  set_extension k "s2v_vec" (ExtGetter (Some self) "s2v_vec");;
  set_extension k "s2v_freq" (ExtGetter (Some self) "s2v_freq");;
  set_extension k "s2v_other_senses" (ExtGetter (Some self) "s2v_other_senses");;
  set_extension k "s2v_most_similar" (ExtMethod (Some self) "s2v_most_similar").

Definition init_component (self : nat) : M unit :=
  set_extension KDoc "_s2v" ExtDefault;;
  set_extension KDoc "s2v_phrases" (ExtGetter None "get_phrases");;
  for_each [KToken; KSpan] (register_accessors self).

Definition __call__ (self : nat) (d : nat) : M nat :=
  c ← deref components self;
  (if first_run c
   then init_component self;; set_first_run self false
   else mret tt);;
  c ← deref components self;
  Doc_set__s2v d (s2v c);;
  c ← deref components self;
  if merge_phrases c then merge_phrases_call d else mret d.

Definition s2v_key (self : nat) (o : Obj) : M string :=
  b ← Doc_get__s2v (doc o);
  r ← getattr_store b "make_key";
  st ← deref stores r;
  c ← deref components self;
  lift_result (make_spacy_key o (Sense2Vec_make_key st) (merge_phrases c)).

Definition in_s2v (self : nat) (o : Obj) : M bool :=
  key ← s2v_key self o;
  b ← Doc_get__s2v (doc o);
  r ← operand_store b "in";
  call_store r (fun st => Ok (Sense2Vec_contains st key)).

Definition s2v_vec (self : nat) (o : Obj) : M Vector :=
  b ← Doc_get__s2v (doc o);
  key ← s2v_key self o;
  r ← operand_store b "[]";
  call_store r (fun st => Sense2Vec_getitem st key).

Definition s2v_freq (self : nat) (o : Obj) : M Z :=
  b ← Doc_get__s2v (doc o);
  r ← getattr_store b "get_freq";
  key ← s2v_key self o;
  call_store r (fun st => Sense2Vec_get_freq st key).

Definition s2v_most_similar (self : nat) (o : Obj) (n : Z)
    : M (list ((string * string) * Score)) :=
  key ← s2v_key self o;
  b ← Doc_get__s2v (doc o);
  r ← getattr_store b "most_similar";
  results ← call_store r (fun st => Sense2Vec_most_similar st [key] n);
  map_M (fun '(res, score) =>
           c ← deref components self;
           p ← call_store (s2v c) (fun st => Sense2Vec_split_key st res);
           mret (p, score))
        results.

Definition s2v_other_senses (self : nat) (o : Obj) : M (list string) :=
  key ← s2v_key self o;
  b ← Obj_get__s2v o;
  r ← getattr_store b "get_other_senses";
  call_store r (fun st => Sense2Vec_get_other_senses st key).

(** [Sense2Vec.from_bytes] and [from_disk] fill the receiver and return it;
    [to_disk] writes the message under the path. *)
Definition Sense2Vec_from_bytes_call (r : nat) (data : list Byte.byte)
    (exclude : list string) : M nat :=
  st ← deref stores r;
  st' ← lift_result (Sense2Vec_from_bytes st data exclude);
  modify_world (fun w => set_stores w (<[r := st']> (stores w)));;
  mret r.

Definition Sense2Vec_to_disk_call (r : nat) (path : string) (exclude : list string)
    : M unit :=
  st ← deref stores r;
  modify_world (fun w => set_disk w (<[path := Sense2Vec_to_msg st exclude]> (disk w))).

Definition Sense2Vec_from_disk_call (r : nat) (path : string) (exclude : list string)
    : M nat :=
  st ← deref stores r;
  w ← get_world;
  match disk w !! path with
  | Some m =>
      modify_world (fun w => set_stores w (<[r := Sense2Vec_of_msg st m exclude]> (stores w)));;
      mret r
  | None => mthrow StoreLoadError
  end.

Definition to_bytes (self : nat) : M (list Byte.byte) :=
  c ← deref components self;
  call_store (s2v c) (fun st => Ok (Sense2Vec_to_bytes st ["strings"])).

Definition from_bytes (self : nat) (bytes_data : list Byte.byte) : M nat :=
  r ← alloc_store (Sense2Vec_new default_shape None);
  r' ← Sense2Vec_from_bytes_call r bytes_data ["strings"];
  set_s2v self r';;
  mret self.

Definition to_disk (self : nat) (path : string) : M unit :=
  c ← deref components self;
  Sense2Vec_to_disk_call (s2v c) path ["strings"].

Definition from_disk (self : nat) (path : string) : M nat :=
  r ← alloc_store (Sense2Vec_new default_shape None);
  r' ← Sense2Vec_from_disk_call r path ["strings"];
  set_s2v self r';;
  mret self.

End Component.

Arguments M {Vector} A.
Arguments World {Vector}.
Arguments Sense2Vec {Vector}.
Arguments Msg {Vector}.

(** ** Observations on a heap *)

(** What [init_component] of the component [self] registers, in order. *)
Definition component_extensions (self : nat) : list Extension :=
  [ mkExt KDoc "_s2v" ExtDefault;
    mkExt KDoc "s2v_phrases" (ExtGetter None "get_phrases");
    mkExt KToken "s2v_key" (ExtGetter (Some self) "s2v_key");
    mkExt KToken "in_s2v" (ExtGetter (Some self) "in_s2v");
    mkExt KToken "s2v_vec" (ExtGetter (Some self) "s2v_vec");
    mkExt KToken "s2v_freq" (ExtGetter (Some self) "s2v_freq");
    mkExt KToken "s2v_other_senses" (ExtGetter (Some self) "s2v_other_senses");
    mkExt KToken "s2v_most_similar" (ExtMethod (Some self) "s2v_most_similar");
    mkExt KSpan "s2v_key" (ExtGetter (Some self) "s2v_key");
    mkExt KSpan "in_s2v" (ExtGetter (Some self) "in_s2v");
    mkExt KSpan "s2v_vec" (ExtGetter (Some self) "s2v_vec");
    mkExt KSpan "s2v_freq" (ExtGetter (Some self) "s2v_freq");
    mkExt KSpan "s2v_other_senses" (ExtGetter (Some self) "s2v_other_senses");
    mkExt KSpan "s2v_most_similar" (ExtMethod (Some self) "s2v_most_similar") ].

(** None of the component's extension names is registered yet. *)
Definition fresh_registry (es : list Extension) : bool :=
  forallb (fun e => negb (has_extension es (ext_kind e) (ext_name e)))
          (component_extensions 0).

(** How many times the name was registered on the class. *)
Definition registrations (es : list Extension) (k : Kind) (name : string) : nat :=
  length (List.filter
            (fun e => bool_decide (ext_kind e = k) && bool_decide (ext_name e = name)) es).

(** The accessor registration as a whole is counted by its first line. *)
Definition registration_count (es : list Extension) : nat :=
  registrations es KDoc "_s2v".

Definition first_run_of {Vector} (w : @World Vector) (self : nat) : option bool :=
  first_run <$> components w !! self.

(** The binding stamped on a document, if any. *)
Definition binding_of {Vector} (w : @World Vector) (d : nat) : option nat :=
  docs w !! d ≫= _s2v.

(** A caller that passes documents to the component one after the other and
    carries on after a failed call. *)
Fixpoint process_all {Vector} (merge : list Doc -> nat -> list Doc * nat)
    (self : nat) (ds : list nat) (w : @World Vector) : @World Vector :=
  match ds with
  | [] => w
  | d :: ds' => process_all merge self ds' (snd (__call__ merge self d w))
  end.

(** The failure the specification calls UnboundDocument: the binding of
    the document could not be read, or what was read is [None]. *)
Definition is_UnboundDocument (e : exn) : bool :=
  match e with
  | AttributeError_NoneType _ => true
  | AttributeError_E046 KDoc name => bool_decide (name = "_s2v")
  | _ => false
  end.

Definition raises_UnboundDocument {A} (r : result A) : Prop :=
  match r with
  | Ok _ => False
  | Raise e => is_UnboundDocument e = true
  end.

(** The object's document is stamped with the store object [r], whose
    content is [st]. *)
Definition bound_to {Vector} (w : @World Vector) (o : Obj) (r : nat)
    (st : @Sense2Vec Vector) : Prop :=
  has_extension (extensions w) KDoc "_s2v" = true
  /\ binding_of w (doc o) = Some r
  /\ stores w !! r = Some st.

(** The sense component of a key: what follows the last separator. *)
Definition key_sense (key : string) : option string := snd <$> rsplit_sep key.

(** Decoding the keys of a store's similarity result, in order. *)
Fixpoint decode_results {Vector Score} (st : @Sense2Vec Vector)
    (results : list (string * Score)) : result (list ((string * string) * Score)) :=
  match results with
  | [] => Ok []
  | (res, score) :: rest =>
      result_bind (Sense2Vec_split_key st res) (fun p =>
      result_bind (decode_results st rest) (fun ps => Ok ((p, score) :: ps)))
  end.

(** What [__call__] does after its first-run block. *)
Definition stamp_and_merge {Vector} (merge : list Doc -> nat -> list Doc * nat)
    (self d : nat) : @M Vector nat :=
  c ← deref components self;
  Doc_set__s2v d (s2v c);;
  c ← deref components self;
  if merge_phrases c then merge_phrases_call merge d else mret d.

(** The order of steps the specification gives for process (section 4.2):
    first-run registration, then the merger, then the stamp on the
    merger's document.  Kept for comparison with [__call__]. *)
Definition process_merge_then_stamp {Vector} (merge : list Doc -> nat -> list Doc * nat)
    (self d : nat) : @M Vector nat :=
  c ← deref components self;
  (if first_run c
   then init_component self;; set_first_run self false
   else mret tt);;
  c ← deref components self;
  d' ← (if merge_phrases c then merge_phrases_call merge d else mret d);
  c ← deref components self;
  Doc_set__s2v d' (s2v c);;
  mret d'.

(** [__call__] can stamp: a component on its first run needs a registry that
    is free of its names, a later run finds the slot registered. *)
Definition can_stamp {Vector} (w : @World Vector) (c : Sense2VecComponent) : bool :=
  if first_run c then fresh_registry (extensions w)
  else has_extension (extensions w) KDoc "_s2v".


(** What a successful load leaves behind: the same component object, now
    pointing at a store allocated by the load; flags, documents, registry
    and the stores that existed are as before. *)
Definition load_frame {Vector} (w : @World Vector) (self : nat)
    (c : Sense2VecComponent) (r : result nat * @World Vector) : Prop :=
  fst r = Ok self
  /\ components (snd r)
     = <[self := mkComp (length (stores w)) (first_run c) (merge_phrases c)]> (components w)
  /\ first_run_of (snd r) self = Some (first_run c)
  /\ merge_phrases <$> components (snd r) !! self = Some (merge_phrases c)
  /\ docs (snd r) = docs w
  /\ extensions (snd r) = extensions w
  /\ forall d r0,
       binding_of w d = Some r0 -> (r0 < length (stores w))%nat ->
       binding_of (snd r) d = Some r0
       /\ stores (snd r) !! r0 = stores w !! r0
       /\ s2v <$> components (snd r) !! self <> Some r0.

(** What a failed load leaves behind: the exception, one more (unused) store
    object, and everything else as it was, so that every bound object is
    still bound to the same store with the same content. *)
Definition failed_load_frame {Vector} (default_shape : Z * Z) (w : @World Vector)
    (r : result nat * @World Vector) : Prop :=
  fst r = Raise StoreLoadError
  /\ components (snd r) = components w
  /\ docs (snd r) = docs w
  /\ extensions (snd r) = extensions w
  /\ disk (snd r) = disk w
  /\ stores (snd r) = stores w ++ [Sense2Vec_new default_shape None]
  /\ forall o r0 st, bound_to w o r0 st -> bound_to (snd r) o r0 st.

(** Every method of the component except [__call__], as a caller may
    invoke them on an instance it has built. *)
Inductive Method :=
| MToBytes
| MFromBytes (data : list Byte.byte)
| MToDisk (path : string)
| MFromDisk (path : string)
| MKey (o : Obj)
| MIn (o : Obj)
| MVec (o : Obj)
| MFreq (o : Obj)
| MMostSimilar (o : Obj) (n : Z)
| MOtherSenses (o : Obj).

Section Methods.

Context {Vector Score : Type}.
Context (msgpack_dumps : @Msg Vector -> list Byte.byte).
Context (msgpack_loads : list Byte.byte -> option (@Msg Vector)).
Context (Sense2Vec_most_similar :
  @Sense2Vec Vector -> list string -> Z -> result (list (string * Score))).
Context (Sense2Vec_get_other_senses : @Sense2Vec Vector -> string -> result (list string)).
Context (default_shape : Z * Z).

(** The heap after one such call, whether it returned or raised. *)
Definition run_method (self : nat) (m : Method) (w : @World Vector) : @World Vector :=
  match m with
  | MToBytes => snd (to_bytes msgpack_dumps self w)
  | MFromBytes data => snd (from_bytes msgpack_loads default_shape self data w)
  | MToDisk path => snd (to_disk self path w)
  | MFromDisk path => snd (from_disk default_shape self path w)
  | MKey o => snd (s2v_key self o w)
  | MIn o => snd (in_s2v self o w)
  | MVec o => snd (s2v_vec self o w)
  | MFreq o => snd (s2v_freq self o w)
  | MMostSimilar o n => snd (s2v_most_similar Sense2Vec_most_similar self o n w)
  | MOtherSenses o => snd (s2v_other_senses Sense2Vec_get_other_senses self o w)
  end.

Fixpoint run_methods (self : nat) (ms : list Method) (w : @World Vector) : @World Vector :=
  match ms with
  | [] => w
  | m :: ms' => run_methods self ms' (run_method self m w)
  end.

End Methods.

(** ** Concrete heaps, stores and collaborators used in the examples *)

Module Ex.

(** A merger that works in place and one that returns a rebuilt copy. *)
Definition merge_in_place (ds : list Doc) (d : nat) : list Doc * nat := (ds, d).

Definition merge_rebuild (ds : list Doc) (d : nat) : list Doc * nat :=
  ((ds ++ [mkDoc (default [] (doc_words <$> ds !! d)) None])%list, length ds).

(** A saved store with two senses of one word. *)
Definition model : @Msg (list Z) :=
  mkMsg (2, 2)%Z
        (<["dog|NOUN" := [1; 2]%Z]> (<["dog|VERB" := [3; 4]%Z]> ∅))
        (<["dog|NOUN" := 42%Z]> (<["dog|VERB" := 7%Z]> ∅))
        (Some ["dog"; "NOUN"; "VERB"]).

Definition store : @Sense2Vec (list Z) :=
  mkS2V (2, 2)%Z [] (msg_vectors model) (msg_freqs model).

(** A store query that answers with the first [n] of a fixed ranking. *)
Definition most_similar (s : @Sense2Vec (list Z)) (keys : list string) (n : Z)
    : result (list (string * Z)) :=
  Ok (firstn (Z.to_nat n) [("wolf|NOUN", 9%Z); ("puppy|NOUN", 8%Z)]).

Definition get_other_senses (s : @Sense2Vec (list Z)) (key : string)
    : result (list string) :=
  Ok ["dog|VERB"].

Definition loads (data : list Byte.byte) : option (@Msg (list Z)) :=
  match data with
  | [] => None
  | _ => Some model
  end.

Definition dumps (m : @Msg (list Z)) : list Byte.byte :=
  match msg_strings m with
  | None => [Byte.x00]
  | Some _ => [Byte.x01]
  end.

(** Two documents nobody processed yet, the saved store on disk, and
    nothing else. *)
Definition w0 : @World (list Z) :=
  mkWorld [] [mkDoc ["the"; "dog"] None; mkDoc ["New"; "York"] None] [] []
          (<["model" := model]> ∅).

(** A component is built (merge mode [m]) and loads the saved store. *)
Definition load_model (m : bool) : @M (list Z) nat :=
  self ← __init__ None (1000, 128)%Z m;
  from_disk (1000, 128)%Z self "model".

Definition w_loaded (m : bool) : @World (list Z) := snd (load_model m w0).

(** Then it processes document 0; document 1 is never processed. *)
Definition w_ready (m : bool) : @World (list Z) :=
  snd (__call__ merge_in_place 0 0 (w_loaded m)).

Definition dog : Obj := mkObj false 0 "dog" "noun" None.
Definition cat : Obj := mkObj false 0 "cat" "noun" None.
Definition new_york : Obj := mkObj true 0 "New York" "propn" (Some "gpe").
Definition stray : Obj := mkObj false 1 "York" "propn" None.

(** A second component is built after the first one has processed. *)
Definition w_second : @World (list Z) :=
  snd (__init__ None (1000, 128)%Z false (w_ready false)).

(** Somebody else registered [Token.s2v_key] before the component ran. *)
Definition w_taken : @World (list Z) :=
  set_extensions (w_loaded false) [mkExt KToken "s2v_key" ExtDefault].

End Ex.

(** * Properties *)

Section Properties.

Context {Vector Score : Type}.
Context (msgpack_dumps : @Msg Vector -> list Byte.byte).
Context (msgpack_loads : list Byte.byte -> option (@Msg Vector)).
Context (Sense2Vec_most_similar :
  @Sense2Vec Vector -> list string -> Z -> result (list (string * Score))).
Context (Sense2Vec_get_other_senses : @Sense2Vec Vector -> string -> result (list string)).
Context (util_merge_phrases : list Doc -> nat -> list Doc * nat).
Context (default_shape : Z * Z).

Implicit Types (w : @World Vector) (self d : nat) (o : Obj).

(** ** Running the monad *)

Lemma bind_Ok {A B} (m : M A) (f : A -> M B) (w w' : @World Vector) a :
  m w = (Ok a, w') -> (m ≫= f) w = f a w'.
Proof. intros H. unfold mbind, M_bind. now rewrite H. Qed.

Lemma bind_Raise {A B} (m : M A) (f : A -> M B) (w w' : @World Vector) e :
  m w = (Raise e, w') -> (m ≫= f) w = (Raise e, w').
Proof. intros H. unfold mbind, M_bind. now rewrite H. Qed.

Lemma deref_Some {A} (heap : @World Vector -> list A) r (a : A) w :
  heap w !! r = Some a -> deref heap r w = (Ok a, w).
Proof. intros H. unfold deref, mbind, M_bind, get_world. now rewrite H. Qed.

Lemma deref_None {A} (heap : @World Vector -> list A) r w :
  heap w !! r = None -> deref heap r w = (Raise (ReferenceError r), w).
Proof. intros H. unfold deref, mbind, M_bind, get_world. now rewrite H. Qed.

(** ** The extension registry *)

Lemma has_extension_app es1 es2 k name :
  has_extension (es1 ++ es2) k name = has_extension es1 k name || has_extension es2 k name.
Proof. unfold has_extension. apply existsb_app. Qed.

Lemma set_extension_fresh k name spec w :
  has_extension (extensions w) k name = false ->
  set_extension k name spec w
  = (Ok tt, set_extensions w (extensions w ++ [mkExt k name spec])).
Proof.
  intros H. unfold set_extension, mbind, M_bind, get_world. now rewrite H.
Qed.

Lemma set_extension_taken k name spec w :
  has_extension (extensions w) k name = true ->
  set_extension k name spec w = (Raise (ValueError_E090 k name), w).
Proof.
  intros H. unfold set_extension, mbind, M_bind, get_world. now rewrite H.
Qed.



Lemma bind_assoc {A B C} (m : M A) (f : A -> M B) (g : B -> M C) (w : @World Vector) :
  ((m ≫= f) ≫= g) w = (m ≫= (fun a => f a ≫= g)) w.
Proof. unfold mbind, M_bind. destruct (m w) as [[a|e] w']; reflexivity. Qed.

Lemma bind_ret_r {A} (m : M A) (w : @World Vector) : (m ≫= mret) w = m w.
Proof. unfold mbind, M_bind, mret, M_ret. destruct (m w) as [[a|e] w']; reflexivity. Qed.

Lemma fresh_registry_spec es :
  fresh_registry es = true ->
  forall k name,
    In (k, name) (map (fun e => (ext_kind e, ext_name e)) (component_extensions 0)) ->
    has_extension es k name = false.
Proof.
  unfold fresh_registry. rewrite forallb_forall. intros H k name Hin.
  apply in_map_iff in Hin as [e [He Hin]]. inversion He; subst.
  apply negb_true_iff. now apply H.
Qed.

Lemma set_extension_step w es k name spec :
  has_extension es k name = false ->
  set_extension k name spec (set_extensions w es)
  = (Ok tt, set_extensions w (es ++ [mkExt k name spec])).
Proof. intros H. now rewrite set_extension_fresh. Qed.

Lemma has_extension_snoc_false es e k name :
  has_extension es k name = false ->
  (bool_decide (ext_kind e = k) && bool_decide (ext_name e = name)) = false ->
  has_extension (es ++ [e]) k name = false.
Proof.
  intros H1 H2. rewrite has_extension_app, H1. unfold has_extension. simpl.
  now rewrite H2.
Qed.

Ltac fresh_name H :=
  repeat (apply has_extension_snoc_false; [| vm_compute; reflexivity]);
  apply H; vm_compute; repeat first [left; reflexivity | right].

Lemma init_component_fresh self w :
  fresh_registry (extensions w) = true ->
  init_component self w
  = (Ok tt, set_extensions w (extensions w ++ component_extensions self)).
Proof.
  intros Hf. pose proof (fresh_registry_spec _ Hf) as H.
  replace w with (set_extensions w (extensions w)) at 1 by (now destruct w).
  unfold init_component, for_each, register_accessors.
  repeat first
  [ rewrite bind_assoc
  | match goal with
    | |- (set_extension ?k ?name ?spec ≫= _) _ = _ =>
      erewrite (bind_Ok (set_extension k name spec));
      [ | apply set_extension_step; fresh_name H ]
    end ].
  unfold mret, M_ret.
  rewrite <- !app_assoc. reflexivity.
Qed.

(** ** [__call__] *)

Ltac run_monad :=
  unfold stamp_and_merge, Doc_set__s2v, Doc_get__s2v, Obj_get__s2v, getattr_store,
    operand_store, call_store, alloc_store, alloc_component, set_first_run, set_s2v,
    merge_phrases_call, deref, lift_result, get_world, modify_world,
    mbind, M_bind, mret, M_ret, mthrow, M_throw.


Lemma call_ready self d w c :
  components w !! self = Some c -> first_run c = false ->
  __call__ util_merge_phrases self d w = stamp_and_merge util_merge_phrases self d w.
Proof.
  intros Hc Hr. unfold __call__.
  rewrite (bind_Ok _ _ _ _ _ (deref_Some components self c w Hc)).
  rewrite Hr. reflexivity.
Qed.

Lemma call_first self d w c :
  components w !! self = Some c -> first_run c = true ->
  fresh_registry (extensions w) = true ->
  __call__ util_merge_phrases self d w
  = stamp_and_merge util_merge_phrases self d
      (set_components (set_extensions w (extensions w ++ component_extensions self))
         (<[self := mkComp (s2v c) false (merge_phrases c)]> (components w))).
Proof.
  intros Hc Hr Hf. unfold __call__.
  rewrite (bind_Ok _ _ _ _ _ (deref_Some components self c w Hc)).
  rewrite Hr, !bind_assoc.
  rewrite (bind_Ok _ _ _ _ _ (init_component_fresh self w Hf)).
  unfold set_first_run. rewrite !bind_assoc.
  erewrite bind_Ok by (apply deref_Some; simpl; exact Hc).
  reflexivity.
Qed.



(** ** One-shot registration *)


(** ** Methods that leave the registry and the documents alone *)

Lemma bind_reads {A B} (m : M A) (f : A -> M B) (w : @World Vector) :
  snd (m w) = w -> (forall a, snd (f a w) = w) -> snd ((m ≫= f) w) = w.
Proof.
  intros Hm Hf. unfold mbind, M_bind. destruct (m w) as [[a|e] w']; simpl in Hm; subst.
  - apply Hf.
  - reflexivity.
Qed.

Lemma deref_reads {A} (heap : @World Vector -> list A) r w : snd (deref heap r w) = w.
Proof. run_monad. destruct (heap w !! r); reflexivity. Qed.

Lemma call_store_reads {A} r (f : @Sense2Vec Vector -> result A) w :
  snd (call_store r f w) = w.
Proof.
  unfold call_store. apply bind_reads; [apply deref_reads|]. reflexivity.
Qed.

Lemma Doc_get_reads d w : snd (Doc_get__s2v d w) = w.
Proof.
  unfold Doc_get__s2v. apply bind_reads; [reflexivity|]. intros w'.
  destruct (has_extension (extensions w') KDoc "_s2v"); [|reflexivity].
  apply bind_reads; [apply deref_reads|]. reflexivity.
Qed.

Lemma s2v_key_reads self o w : snd (s2v_key self o w) = w.
Proof.
  unfold s2v_key. apply bind_reads; [apply Doc_get_reads|]. intros [r|]; [|reflexivity].
  apply bind_reads; [reflexivity|]. intros r'.
  apply bind_reads; [apply deref_reads|]. intros st.
  apply bind_reads; [apply deref_reads|]. reflexivity.
Qed.

Lemma map_M_reads {A B} (f : A -> M B) (l : list A) (w : @World Vector) :
  (forall a, snd (f a w) = w) -> snd (map_M f l w) = w.
Proof.
  intros Hf. induction l as [|a l IH]; [reflexivity|].
  cbn [map_M]. apply bind_reads; [apply Hf|]. intros b.
  apply bind_reads; [exact IH|]. reflexivity.
Qed.

Lemma accessors_read self o (n : Z) w :
  snd (in_s2v self o w) = w
  /\ snd (s2v_vec self o w) = w
  /\ snd (s2v_freq self o w) = w
  /\ snd (s2v_most_similar Sense2Vec_most_similar self o n w) = w
  /\ snd (s2v_other_senses Sense2Vec_get_other_senses self o w) = w.
Proof.
  repeat split.
  - unfold in_s2v. apply bind_reads; [apply s2v_key_reads|]. intros key.
    apply bind_reads; [apply Doc_get_reads|]. intros [r|]; [|reflexivity].
    apply bind_reads; [reflexivity|]. intros r'. apply call_store_reads.
  - unfold s2v_vec. apply bind_reads; [apply Doc_get_reads|]. intros b.
    apply bind_reads; [apply s2v_key_reads|]. intros key. destruct b as [r|]; [|reflexivity].
    apply bind_reads; [reflexivity|]. intros r'. apply call_store_reads.
  - unfold s2v_freq. apply bind_reads; [apply Doc_get_reads|]. intros [r|]; [|reflexivity].
    apply bind_reads; [reflexivity|]. intros r'.
    apply bind_reads; [apply s2v_key_reads|]. intros key. apply call_store_reads.
  - unfold s2v_most_similar. apply bind_reads; [apply s2v_key_reads|]. intros key.
    apply bind_reads; [apply Doc_get_reads|]. intros [r|]; [|reflexivity].
    apply bind_reads; [reflexivity|]. intros r'.
    apply bind_reads; [apply call_store_reads|]. intros results.
    apply map_M_reads. intros [res score].
    apply bind_reads; [apply deref_reads|]. intros c.
    apply bind_reads; [apply call_store_reads|]. reflexivity.
  - unfold s2v_other_senses. apply bind_reads; [apply s2v_key_reads|]. intros key.
    apply bind_reads.
    { unfold Obj_get__s2v. apply bind_reads; [reflexivity|]. intros w'.
      destruct (has_extension (extensions w') (kind_of o) "_s2v"); reflexivity. }
    intros [r|]; [|reflexivity].
    apply bind_reads; [reflexivity|]. intros r'. apply call_store_reads.
Qed.

Lemma from_bytes_frame self data w :
  extensions (snd (from_bytes msgpack_loads default_shape self data w)) = extensions w
  /\ docs (snd (from_bytes msgpack_loads default_shape self data w)) = docs w.
Proof.
  unfold from_bytes, Sense2Vec_from_bytes_call, Sense2Vec_from_bytes. run_monad. simpl.
  repeat (case_match; simpl in *; simplify_eq); auto.
Qed.

Lemma from_disk_frame self path w :
  extensions (snd (from_disk default_shape self path w)) = extensions w
  /\ docs (snd (from_disk default_shape self path w)) = docs w.
Proof.
  unfold from_disk, Sense2Vec_from_disk_call. run_monad. simpl.
  repeat (case_match; simpl in *; simplify_eq); auto.
Qed.

Lemma to_disk_frame self path w :
  extensions (snd (to_disk self path w)) = extensions w
  /\ docs (snd (to_disk self path w)) = docs w.
Proof.
  unfold to_disk, Sense2Vec_to_disk_call. run_monad.
  destruct (components w !! self) as [c|]; simpl; [|auto].
  destruct (stores w !! s2v c); simpl; auto.
Qed.

Lemma to_bytes_reads self w : snd (to_bytes msgpack_dumps self w) = w.
Proof.
  unfold to_bytes. apply bind_reads; [apply deref_reads|]. intros c.
  apply call_store_reads.
Qed.

Lemma run_method_frame self m w :
  let w' := run_method msgpack_dumps msgpack_loads Sense2Vec_most_similar
              Sense2Vec_get_other_senses default_shape self m w in
  extensions w' = extensions w /\ docs w' = docs w.
Proof.
  destruct m as [|data|path|path|o|o|o|o|o n|o]; cbn [run_method].
  - now rewrite to_bytes_reads.
  - apply from_bytes_frame.
  - apply to_disk_frame.
  - apply from_disk_frame.
  - now rewrite s2v_key_reads.
  - destruct (accessors_read self o 0 w) as (-> & _). auto.
  - destruct (accessors_read self o 0 w) as (_ & -> & _). auto.
  - destruct (accessors_read self o 0 w) as (_ & _ & -> & _). auto.
  - destruct (accessors_read self o n w) as (_ & _ & _ & -> & _). auto.
  - destruct (accessors_read self o 0 w) as (_ & _ & _ & _ & ->). auto.
Qed.

Lemma run_methods_frame self ms w :
  let w' := run_methods msgpack_dumps msgpack_loads Sense2Vec_most_similar
              Sense2Vec_get_other_senses default_shape self ms w in
  extensions w' = extensions w /\ docs w' = docs w.
Proof.
  revert w. induction ms as [|m ms IH]; intros w; cbn [run_methods]; [auto|].
  destruct (IH (run_method msgpack_dumps msgpack_loads Sense2Vec_most_similar
                  Sense2Vec_get_other_senses default_shape self m w)) as [He Hd].
  destruct (run_method_frame self m w) as [He' Hd'].
  split; congruence.
Qed.

(** C8. Constructing the component only allocates: a new store and the new
    component object, with [first_run] set.  The extension registry, the
    documents and the disk are exactly as before, and the objects that were
    there keep their place and content.  Whatever is then called on the new
    component short of [__call__] (serialization, loading, the accessors),
    the registry and the documents stay as they were before the
    construction. *)
Theorem init_registers_nothing (vocab : option Vocab) (shp : Z * Z) (merge : bool) w :
  let r := __init__ vocab shp merge w in
  fst r = Ok (length (components w))
  /\ extensions (snd r) = extensions w
  /\ registration_count (extensions (snd r)) = registration_count (extensions w)
  /\ docs (snd r) = docs w
  /\ disk (snd r) = disk w
  /\ stores (snd r) = stores w ++ [Sense2Vec_new shp (vocab_strings <$> vocab)]
  /\ components (snd r) = components w ++ [mkComp (length (stores w)) true merge]
  /\ forall ms,
       let w' := run_methods msgpack_dumps msgpack_loads Sense2Vec_most_similar
                   Sense2Vec_get_other_senses default_shape
                   (length (components w)) ms (snd r) in
       extensions w' = extensions w /\ docs w' = docs w.
Proof.
  unfold __init__. run_monad. cbn [fst snd].
  split; [reflexivity|]. split; [reflexivity|]. split; [reflexivity|].
  split; [reflexivity|]. split; [reflexivity|]. split; [reflexivity|].
  split; [reflexivity|].
  intros ms.
  exact (run_methods_frame _ ms
           (set_components
              (set_stores w (stores w ++ [Sense2Vec_new shp (vocab_strings <$> vocab)]))
              (components w ++ [mkComp (length (stores w)) true merge]))).
Qed.

(** ** The accessors on a document without binding *)

Lemma Doc_get_unbound d dd w :
  docs w !! d = Some dd -> _s2v dd = None ->
  Doc_get__s2v d w = (Ok None, w)
  \/ Doc_get__s2v d w = (Raise (AttributeError_E046 KDoc "_s2v"), w).
Proof.
  intros Hd Hs. unfold Doc_get__s2v. run_monad.
  destruct (has_extension (extensions w) KDoc "_s2v"); [left|now right].
  rewrite Hd, Hs. reflexivity.
Qed.

Lemma s2v_key_unbound self o dd w :
  docs w !! doc o = Some dd -> _s2v dd = None ->
  exists e, s2v_key self o w = (Raise e, w) /\ is_UnboundDocument e = true.
Proof.
  intros Hd Hs. unfold s2v_key.
  destruct (Doc_get_unbound _ _ _ Hd Hs) as [H|H].
  - exists (AttributeError_NoneType "make_key"). split; [|reflexivity].
    rewrite (bind_Ok _ _ _ _ _ H). reflexivity.
  - eexists. split; [apply (bind_Raise _ _ _ _ _ H)|reflexivity].
Qed.

(** C2. On a token or span whose document holds no binding (no [__call__]
    ever stamped it), each of the five accessors raises, and what it raises
    is the failure to reach a store through the document: the
    specification's UnboundDocument. *)
Theorem accessors_fail_on_unbound_document self o dd (n : Z) w :
  docs w !! doc o = Some dd ->
  _s2v dd = None ->
  raises_UnboundDocument (fst (in_s2v self o w))
  /\ raises_UnboundDocument (fst (s2v_vec self o w))
  /\ raises_UnboundDocument (fst (s2v_freq self o w))
  /\ raises_UnboundDocument (fst (s2v_most_similar Sense2Vec_most_similar self o n w))
  /\ raises_UnboundDocument (fst (s2v_other_senses Sense2Vec_get_other_senses self o w)).
Proof.
  intros Hd Hs.
  destruct (s2v_key_unbound self o dd w Hd Hs) as (e & Hk & He).
  repeat split.
  - unfold in_s2v. rewrite (bind_Raise _ _ _ _ _ Hk). exact He.
  - unfold s2v_vec. destruct (Doc_get_unbound _ _ _ Hd Hs) as [H|H].
    + rewrite (bind_Ok _ _ _ _ _ H), (bind_Raise _ _ _ _ _ Hk). exact He.
    + rewrite (bind_Raise _ _ _ _ _ H). reflexivity.
  - unfold s2v_freq. destruct (Doc_get_unbound _ _ _ Hd Hs) as [H|H].
    + rewrite (bind_Ok _ _ _ _ _ H). reflexivity.
    + rewrite (bind_Raise _ _ _ _ _ H). reflexivity.
  - unfold s2v_most_similar. rewrite (bind_Raise _ _ _ _ _ Hk). exact He.
  - unfold s2v_other_senses. rewrite (bind_Raise _ _ _ _ _ Hk). exact He.
Qed.

(** ** The accessors on a bound document *)

Lemma Doc_get_bound o r st w :
  bound_to w o r st -> Doc_get__s2v (doc o) w = (Ok (Some r), w).
Proof.
  intros (Hx & Hb & _). unfold binding_of in Hb. unfold Doc_get__s2v. run_monad.
  rewrite Hx. destruct (docs w !! doc o) as [dd|]; simpl in Hb; [|discriminate].
  now rewrite Hb.
Qed.

Lemma call_store_Some {A} r st (f : @Sense2Vec Vector -> result A) w :
  stores w !! r = Some st -> call_store r f w = (f st, w).
Proof. intros H. run_monad. now rewrite H. Qed.

Lemma s2v_key_bound self c o r st w :
  components w !! self = Some c -> bound_to w o r st ->
  s2v_key self o w
  = (make_spacy_key o (Sense2Vec_make_key st) (merge_phrases c), w).
Proof.
  intros Hc Hb. unfold s2v_key.
  rewrite (bind_Ok _ _ _ _ _ (Doc_get_bound o r st w Hb)).
  destruct Hb as (_ & _ & Hst). run_monad. now rewrite Hst, Hc.
Qed.

Lemma rsplit_sep_None s : has_sep s = false -> rsplit_sep s = None.
Proof.
  induction s as [|ch s IH]; simpl; [easy|].
  intros H. apply orb_false_iff in H as [H1 H2]. now rewrite (IH H2), H1.
Qed.

Lemma rsplit_sep_app t s :
  has_sep s = false -> rsplit_sep (t +:+ String sep s) = Some (t, s).
Proof.
  intros H. induction t as [|ch t IH]; simpl.
  - now rewrite (rsplit_sep_None s H).
  - now rewrite IH.
Qed.

Lemma make_spacy_key_Ok o (mk : string -> string -> string) b sense :
  resolved_sense o b = sense -> sense <> "" ->
  make_spacy_key o mk b = Ok (mk (normalize_text (text o)) sense).
Proof.
  intros H Hne. unfold make_spacy_key. rewrite H.
  now rewrite bool_decide_eq_false_2.
Qed.

(** C4. The sense component of the key of a bound object.  With merge mode
    on and an entity label on the object, the key is the normalised text,
    the separator and the label uppercased; in every other case (merge mode
    off, or no label) it ends in the coarse tag uppercased.  Where the sense
    holds no separator, decoding the key gives that sense back. *)
Theorem sense_component_policy self c o r st w :
  components w !! self = Some c ->
  bound_to w o r st ->
  (forall l, merge_phrases c = true -> label_ o = Some l -> upper l <> "" ->
     fst (s2v_key self o w) = Ok (normalize_text (text o) +:+ String sep (upper l))
     /\ (has_sep (upper l) = false ->
         key_sense (normalize_text (text o) +:+ String sep (upper l)) = Some (upper l)))
  /\ (merge_phrases c = false \/ label_ o = None -> upper (pos_ o) <> "" ->
     fst (s2v_key self o w) = Ok (normalize_text (text o) +:+ String sep (upper (pos_ o)))
     /\ (has_sep (upper (pos_ o)) = false ->
         key_sense (normalize_text (text o) +:+ String sep (upper (pos_ o)))
         = Some (upper (pos_ o)))).
Proof.
  intros Hc Hb. rewrite (s2v_key_bound self c o r st w Hc Hb). simpl. split.
  - intros l Hm Hl Hne. split.
    + rewrite (make_spacy_key_Ok o (Sense2Vec_make_key st) _ (upper l));
        [reflexivity| |exact Hne].
      unfold resolved_sense. now rewrite Hl, Hm.
    + intros Hs. unfold key_sense. now rewrite rsplit_sep_app.
  - intros Hcase Hne. split.
    + rewrite (make_spacy_key_Ok o (Sense2Vec_make_key st) _ (upper (pos_ o)));
        [reflexivity| |exact Hne].
      unfold resolved_sense. destruct Hcase as [Hm|Hl].
      * rewrite Hm. now destruct (label_ o).
      * now rewrite Hl.
    + intros Hs. unfold key_sense. now rewrite rsplit_sep_app.
Qed.

(** C7. A bound object whose key the store does not hold: [s2v_vec] raises
    the store's own KeyNotFound for that key, exactly what the store's
    lookup returned and with the heap untouched, while [in_s2v] returns
    [False] without raising. *)
Theorem missing_key_is_a_hard_error self c o r st key w :
  components w !! self = Some c ->
  bound_to w o r st ->
  fst (s2v_key self o w) = Ok key ->
  vectors st !! key = None ->
  s2v_vec self o w = (Raise (KeyNotFound key), w)
  /\ fst (s2v_vec self o w) = Sense2Vec_getitem st key
  /\ in_s2v self o w = (Ok false, w).
Proof.
  intros Hc Hb Hk Hv.
  pose proof (s2v_key_bound self c o r st w Hc Hb) as Hkey.
  rewrite Hkey in Hk. simpl in Hk. rewrite Hk in Hkey.
  pose proof (Doc_get_bound o r st w Hb) as Hg.
  destruct Hb as (_ & _ & Hst).
  assert (Hvec : s2v_vec self o w = (Sense2Vec_getitem st key, w)).
  { unfold s2v_vec.
    rewrite (bind_Ok _ _ _ _ _ Hg), (bind_Ok _ _ _ _ _ Hkey). simpl.
    unfold operand_store. erewrite bind_Ok by reflexivity.
    exact (call_store_Some r st (fun st => Sense2Vec_getitem st key) w Hst). }
  repeat split.
  - rewrite Hvec. unfold Sense2Vec_getitem. now rewrite Hv.
  - now rewrite Hvec.
  - unfold in_s2v.
    rewrite (bind_Ok _ _ _ _ _ Hkey), (bind_Ok _ _ _ _ _ Hg). simpl.
    unfold operand_store. erewrite bind_Ok by reflexivity.
    rewrite (call_store_Some _ _ _ _ Hst). unfold Sense2Vec_contains.
    rewrite Hv. reflexivity.
Qed.

(** ** Stamping and merging *)

Lemma stamp_and_merge_run self c d dd w :
  has_extension (extensions w) KDoc "_s2v" = true ->
  components w !! self = Some c ->
  docs w !! d = Some dd ->
  let stamped := <[d := mkDoc (doc_words dd) (Some (s2v c))]> (docs w) in
  stamp_and_merge util_merge_phrases self d w
  = if merge_phrases c
    then (Ok (snd (util_merge_phrases stamped d)),
          set_docs w (fst (util_merge_phrases stamped d)))
    else (Ok d, set_docs w stamped).
Proof.
  intros Hx Hc Hd stamped. run_monad. rewrite Hc, Hx, Hd. simpl. rewrite Hc.
  destruct (merge_phrases c); [|reflexivity].
  simpl. subst stamped. destruct (util_merge_phrases _ d). reflexivity.
Qed.

Lemma call_run self c d dd w :
  components w !! self = Some c ->
  can_stamp w c = true ->
  docs w !! d = Some dd ->
  let stamped := <[d := mkDoc (doc_words dd) (Some (s2v c))]> (docs w) in
  let r := __call__ util_merge_phrases self d w in
  fst r = (if merge_phrases c then Ok (snd (util_merge_phrases stamped d)) else Ok d)
  /\ docs (snd r) = (if merge_phrases c then fst (util_merge_phrases stamped d) else stamped)
  /\ s2v <$> components (snd r) !! self = Some (s2v c).
Proof.
  intros Hc Hs Hd stamped r. subst r. unfold can_stamp in Hs.
  destruct (first_run c) eqn:Hr.
  - rewrite (call_first self d w c Hc Hr Hs).
    erewrite stamp_and_merge_run with (dd := dd)
      (c := mkComp (s2v c) false (merge_phrases c)).
    + simpl. destruct (merge_phrases c); simpl; repeat split; auto;
        rewrite list_lookup_insert_eq by (eapply lookup_lt_Some; exact Hc);
        reflexivity.
    + simpl. rewrite has_extension_app. apply orb_true_iff. right.
      vm_compute. reflexivity.
    + simpl. apply list_lookup_insert_eq. eapply lookup_lt_Some; exact Hc.
    + exact Hd.
  - rewrite (call_ready self d w c Hc Hr).
    rewrite (stamp_and_merge_run self c d dd w Hs Hc Hd).
    destruct (merge_phrases c); simpl; rewrite Hc; auto.
Qed.


(** Without merging, [__call__] stamps its document and no other. *)
Lemma call_stamps_only_its_document self c d dd d' w :
  components w !! self = Some c ->
  merge_phrases c = false ->
  can_stamp w c = true ->
  docs w !! d = Some dd ->
  d' <> d ->
  binding_of (snd (__call__ util_merge_phrases self d w)) d = Some (s2v c)
  /\ binding_of (snd (__call__ util_merge_phrases self d w)) d' = binding_of w d'.
Proof.
  intros Hc Hm Hs Hd Hne.
  destruct (call_run self c d dd w Hc Hs Hd) as (_ & Hds & _).
  rewrite Hm in Hds. unfold binding_of. rewrite Hds. split.
  - rewrite list_lookup_insert_eq by (eapply lookup_lt_Some; exact Hd). reflexivity.
  - rewrite list_lookup_insert_ne by congruence. reflexivity.
Qed.

(** ** Similar entries *)

Lemma bind_Ok_or_Raise_call_store {A B} r st (f : @Sense2Vec Vector -> result A)
    (k : A -> M B) w :
  stores w !! r = Some st ->
  (call_store r f ≫= k) w
  = match f st with Ok a => k a w | Raise e => (Raise e, w) end.
Proof.
  intros H. unfold mbind at 1, M_bind at 1. rewrite (call_store_Some r st f w H).
  reflexivity.
Qed.


Lemma map_M_decode self c st' (results : list (string * Score)) w :
  components w !! self = Some c ->
  stores w !! s2v c = Some st' ->
  map_M (fun '(res, score) =>
           c ← deref components self;
           p ← call_store (s2v c) (fun st => Sense2Vec_split_key st res);
           mret (p, score)) results w
  = (decode_results st' results, w).
Proof.
  intros Hc Hst. induction results as [|[res score] rest IH]; [reflexivity|].
  cbn [map_M decode_results].
  unfold mbind at 1, M_bind at 1.
  unfold mbind at 1, M_bind at 1.
  rewrite (deref_Some components self c w Hc).
  unfold mbind at 1, M_bind at 1.
  rewrite (call_store_Some (s2v c) st' (fun st => Sense2Vec_split_key st res) w Hst).
  destruct (Sense2Vec_split_key st' res) as [p|e]; simpl; [|reflexivity].
  unfold mbind, M_bind, mret, M_ret in *. rewrite IH.
  destruct (decode_results st' rest); reflexivity.
Qed.

Lemma decode_results_Ok (st : @Sense2Vec Vector) (results : list (string * Score)) res :
  decode_results st results = Ok res ->
  length res = length results
  /\ map snd res = map snd results
  /\ Forall2 (fun p q => rsplit_sep (fst q) = Some (fst p)) res results.
Proof.
  revert res. induction results as [|[k sc] rest IH]; intros res H; simpl in H.
  - injection H as <-. repeat split; constructor.
  - unfold Sense2Vec_split_key in H.
    destruct (rsplit_sep k) as [p|] eqn:Hk; simpl in H; [|discriminate].
    destruct (decode_results st rest) as [ps|e]; simpl in H; [|discriminate].
    injection H as <-. destruct (IH ps eq_refl) as (Hl & Hs & Hf).
    simpl. repeat split; [congruence | congruence |].
    constructor; [exact Hk | exact Hf].
Qed.

(** C6, as the code has it.  [s2v_most_similar] hands [n] to the bound
    store's query as it is, for the single encoded key, and checks nothing
    itself: the outcome is the store's answer with every key decoded by
    [split_key] of the component's current store, or the store's or the
    decoder's exception.  A returned list has the length, the scores and
    the order of the store's answer, so it holds at most [n] entries
    whenever the store answered with at most [n]. *)
Theorem most_similar_forwards_n self c o r st st' key (n : Z) w :
  components w !! self = Some c ->
  bound_to w o r st ->
  stores w !! s2v c = Some st' ->
  fst (s2v_key self o w) = Ok key ->
  s2v_most_similar Sense2Vec_most_similar self o n w
  = (result_bind (Sense2Vec_most_similar st [key] n) (decode_results st'), w)
  /\ forall res,
       fst (s2v_most_similar Sense2Vec_most_similar self o n w) = Ok res ->
       exists results,
         Sense2Vec_most_similar st [key] n = Ok results
         /\ length res = length results
         /\ map snd res = map snd results
         /\ Forall2 (fun p q => rsplit_sep (fst q) = Some (fst p)) res results
         /\ ((Z.of_nat (length results) <= n)%Z -> (Z.of_nat (length res) <= n)%Z).
Proof.
  intros Hc Hb Hst' Hk.
  pose proof (s2v_key_bound self c o r st w Hc Hb) as Hkey.
  rewrite Hkey in Hk. simpl in Hk. rewrite Hk in Hkey.
  pose proof (Doc_get_bound o r st w Hb) as Hg.
  destruct Hb as (_ & _ & Hst).
  assert (Hrun : s2v_most_similar Sense2Vec_most_similar self o n w
    = (result_bind (Sense2Vec_most_similar st [key] n) (decode_results st'), w)).
  { unfold s2v_most_similar.
    rewrite (bind_Ok _ _ _ _ _ Hkey), (bind_Ok _ _ _ _ _ Hg). simpl.
    unfold getattr_store. erewrite bind_Ok by reflexivity.
    unfold mbind at 1, M_bind at 1.
    rewrite (call_store_Some r st (fun st => Sense2Vec_most_similar st [key] n) w Hst).
    destruct (Sense2Vec_most_similar st [key] n) as [results|e]; simpl; [|reflexivity].
    apply (map_M_decode self c st' results w Hc Hst'). }
  split; [exact Hrun|].
  intros res Hres. rewrite Hrun in Hres. simpl in Hres.
  destruct (Sense2Vec_most_similar st [key] n) as [results|e]; simpl in Hres;
    [|discriminate].
  exists results. destruct (decode_results_Ok st' results res Hres) as (Hl & Hs & Hf).
  repeat split; auto. rewrite Hl. auto.
Qed.

(** ** Serialization *)

Lemma insert_alloc {A} (l : list A) (x y : A) : <[length l := x]> (l ++ [y]) = l ++ [x].
Proof.
  rewrite insert_app_r_alt by reflexivity. now rewrite Nat.sub_diag.
Qed.

Lemma exclude_strings : bool_decide ("strings" ∈ ["strings"]) = true.
Proof. apply bool_decide_eq_true_2. constructor. Qed.

Lemma to_msg_excludes_strings (st : @Sense2Vec Vector) :
  Sense2Vec_to_msg st ["strings"] = mkMsg (shape st) (vectors st) (freqs st) None.
Proof. unfold Sense2Vec_to_msg. now rewrite exclude_strings. Qed.

Lemma of_msg_excludes_strings (st : @Sense2Vec Vector) (m : Msg) :
  Sense2Vec_of_msg st m ["strings"]
  = mkS2V (msg_shape m) (strings st) (msg_vectors m) (msg_freqs m).
Proof. unfold Sense2Vec_of_msg. now rewrite exclude_strings. Qed.

Lemma from_bytes_run self c data w :
  components w !! self = Some c ->
  from_bytes msgpack_loads default_shape self data w
  = match msgpack_loads data with
    | Some m =>
        (Ok self,
         set_components
           (set_stores w
              (stores w ++ [Sense2Vec_of_msg (Sense2Vec_new default_shape None) m ["strings"]]))
           (<[self := mkComp (length (stores w)) (first_run c) (merge_phrases c)]>
              (components w)))
    | None =>
        (Raise StoreLoadError,
         set_stores w (stores w ++ [Sense2Vec_new default_shape None]))
    end.
Proof.
  intros Hc.
  unfold from_bytes, Sense2Vec_from_bytes_call, Sense2Vec_from_bytes. run_monad. simpl.
  rewrite lookup_app_r by reflexivity. rewrite Nat.sub_diag. simpl.
  destruct (msgpack_loads data) as [m|]; simpl; [|reflexivity].
  rewrite Hc, insert_alloc. reflexivity.
Qed.

Lemma from_disk_run self c path w :
  components w !! self = Some c ->
  from_disk default_shape self path w
  = match disk w !! path with
    | Some m =>
        (Ok self,
         set_components
           (set_stores w
              (stores w ++ [Sense2Vec_of_msg (Sense2Vec_new default_shape None) m ["strings"]]))
           (<[self := mkComp (length (stores w)) (first_run c) (merge_phrases c)]>
              (components w)))
    | None =>
        (Raise StoreLoadError,
         set_stores w (stores w ++ [Sense2Vec_new default_shape None]))
    end.
Proof.
  intros Hc.
  unfold from_disk, Sense2Vec_from_disk_call. run_monad. simpl.
  rewrite lookup_app_r by reflexivity. rewrite Nat.sub_diag. simpl.
  destruct (disk w !! path) as [m|]; simpl; [|reflexivity].
  rewrite Hc, insert_alloc. reflexivity.
Qed.

(** C9. The four serialization methods hand over to the store's own
    (de)serialization with the string table excluded.  [to_bytes] returns
    what the store writes, [to_disk] stores the store's message under the
    path, and neither message has a string section; [from_bytes] and
    [from_disk] return the outcome of the store's reader run on a new store,
    whose string table stays its own whatever the payload holds, and a
    reader's failure is the method's failure. *)
Theorem serialization_passes_through_without_strings self c st w :
  components w !! self = Some c ->
  stores w !! s2v c = Some st ->
  let fresh := Sense2Vec_new default_shape None in
  (to_bytes msgpack_dumps self w = (Ok (Sense2Vec_to_bytes msgpack_dumps st ["strings"]), w)
   /\ Sense2Vec_to_bytes msgpack_dumps st ["strings"]
      = msgpack_dumps (mkMsg (shape st) (vectors st) (freqs st) None))
  /\ (forall path,
        to_disk self path w
        = (Ok tt, set_disk w (<[path := Sense2Vec_to_msg st ["strings"]]> (disk w)))
        /\ msg_strings (Sense2Vec_to_msg st ["strings"]) = None)
  /\ (forall data,
        let r := from_bytes msgpack_loads default_shape self data w in
        match Sense2Vec_from_bytes msgpack_loads fresh data ["strings"] with
        | Ok st' =>
            fst r = Ok self
            /\ stores (snd r) = stores w ++ [st']
            /\ s2v <$> components (snd r) !! self = Some (length (stores w))
            /\ strings st' = strings fresh
        | Raise e => fst r = Raise e /\ components (snd r) = components w
        end)
  /\ (forall path,
        let r := from_disk default_shape self path w in
        match disk w !! path with
        | Some m =>
            fst r = Ok self
            /\ stores (snd r) = stores w ++ [Sense2Vec_of_msg fresh m ["strings"]]
            /\ s2v <$> components (snd r) !! self = Some (length (stores w))
            /\ strings (Sense2Vec_of_msg fresh m ["strings"]) = strings fresh
        | None => fst r = Raise StoreLoadError /\ components (snd r) = components w
        end).
Proof.
  intros Hc Hst fresh.
  assert (Hlt : (self < length (components w))%nat) by (eapply lookup_lt_Some; exact Hc).
  split; [split|split; [|split]].
  - unfold to_bytes. rewrite (bind_Ok _ _ _ _ _ (deref_Some components self c w Hc)).
    apply (call_store_Some (s2v c) st). exact Hst.
  - unfold Sense2Vec_to_bytes. now rewrite to_msg_excludes_strings.
  - intros path. split; [|now rewrite to_msg_excludes_strings].
    unfold to_disk, Sense2Vec_to_disk_call.
    rewrite (bind_Ok _ _ _ _ _ (deref_Some components self c w Hc)).
    rewrite (bind_Ok _ _ _ _ _ (deref_Some stores (s2v c) st w Hst)).
    reflexivity.
  - intros data r. subst r. rewrite (from_bytes_run self c data w Hc).
    unfold Sense2Vec_from_bytes. destruct (msgpack_loads data) as [m|]; cbn [fst snd].
    + split; [reflexivity|]. split; [reflexivity|]. split.
      * simpl. now rewrite list_lookup_insert_eq.
      * now rewrite of_msg_excludes_strings.
    + split; reflexivity.
  - intros path r. subst r. rewrite (from_disk_run self c path w Hc).
    destruct (disk w !! path) as [m|]; cbn [fst snd].
    + split; [reflexivity|]. split; [reflexivity|]. split.
      * simpl. now rewrite list_lookup_insert_eq.
      * now rewrite of_msg_excludes_strings.
    + split; reflexivity.
Qed.

Lemma load_frame_intro self c (st' : @Sense2Vec Vector) w :
  components w !! self = Some c ->
  load_frame w self c
    (Ok self,
     set_components (set_stores w (stores w ++ [st']))
       (<[self := mkComp (length (stores w)) (first_run c) (merge_phrases c)]>
          (components w))).
Proof.
  intros Hc.
  assert (Hlt : (self < length (components w))%nat) by (eapply lookup_lt_Some; exact Hc).
  unfold load_frame, first_run_of, binding_of. simpl.
  rewrite list_lookup_insert_eq by exact Hlt. simpl.
  repeat split; auto.
  - now apply lookup_app_l.
  - intros Heq. injection Heq as Heq. lia.
Qed.

(** C10. A successful load, from bytes or from a directory, returns the
    component it was called on and changes that component's store reference
    only: [first_run] and [merge_phrases] are as before, so are the
    documents and the registry, and a document bound before the load is
    still bound to the same store object, which is untouched and is not the
    one the component now points at. *)
Theorem loading_changes_only_the_store_reference self c w :
  components w !! self = Some c ->
  (forall data m,
     msgpack_loads data = Some m ->
     load_frame w self c (from_bytes msgpack_loads default_shape self data w))
  /\ (forall path m,
     disk w !! path = Some m ->
     load_frame w self c (from_disk default_shape self path w)).
Proof.
  intros Hc. split.
  - intros data m Hm. rewrite (from_bytes_run self c data w Hc), Hm.
    now apply load_frame_intro.
  - intros path m Hm. rewrite (from_disk_run self c path w Hc), Hm.
    now apply load_frame_intro.
Qed.

(** ** Other senses *)

(** [s2v_other_senses] reads the slot of the token or span itself, which
    [init_component] never registers: once the key is built, the read
    raises, whatever the store holds. *)
Lemma other_senses_reads_the_object_slot self c o r st key w :
  components w !! self = Some c ->
  bound_to w o r st ->
  fst (s2v_key self o w) = Ok key ->
  has_extension (extensions w) (kind_of o) "_s2v" = false ->
  s2v_other_senses Sense2Vec_get_other_senses self o w
  = (Raise (AttributeError_E046 (kind_of o) "_s2v"), w).
Proof.
  intros Hc Hb Hk Hx.
  pose proof (s2v_key_bound self c o r st w Hc Hb) as Hkey.
  rewrite Hkey in Hk. simpl in Hk. rewrite Hk in Hkey.
  unfold s2v_other_senses. rewrite (bind_Ok _ _ _ _ _ Hkey).
  unfold Obj_get__s2v. run_monad. now rewrite Hx.
Qed.

Lemma init_component_leaves_object_slot_unregistered es self o :
  has_extension (es ++ component_extensions self) (kind_of o) "_s2v"
  = has_extension es (kind_of o) "_s2v".
Proof.
  rewrite has_extension_app. unfold kind_of.
  destruct (is_span o); vm_compute has_extension at 2; apply orb_false_r.
Qed.

(** * Further properties of the component *)

(** ** What the read-only methods never do *)

(** X1. [s2v_key], the five accessors and [to_bytes] only read: whether
    they return or raise, the heap (registry, documents, stores, components,
    disk) is exactly the one they were called on. *)
Theorem accessors_never_write self o (n : Z) w :
  snd (s2v_key self o w) = w
  /\ snd (in_s2v self o w) = w
  /\ snd (s2v_vec self o w) = w
  /\ snd (s2v_freq self o w) = w
  /\ snd (s2v_most_similar Sense2Vec_most_similar self o n w) = w
  /\ snd (s2v_other_senses Sense2Vec_get_other_senses self o w) = w
  /\ snd (to_bytes msgpack_dumps self w) = w.
Proof.
  split; [apply s2v_key_reads|].
  destruct (accessors_read self o n w) as (H1 & H2 & H3 & H4 & H5).
  repeat split; try assumption. apply to_bytes_reads.
Qed.

(** ** Registration on a registry that is not free *)

Lemma init_component_taken self w :
  has_extension (extensions w) KDoc "_s2v" = true ->
  init_component self w = (Raise (ValueError_E090 KDoc "_s2v"), w).
Proof.
  intros H. unfold init_component.
  apply bind_Raise. now apply set_extension_taken.
Qed.

Lemma call_taken self c d w :
  components w !! self = Some c ->
  first_run c = true ->
  has_extension (extensions w) KDoc "_s2v" = true ->
  __call__ util_merge_phrases self d w = (Raise (ValueError_E090 KDoc "_s2v"), w).
Proof.
  intros Hc Hr Hx. unfold __call__.
  rewrite (bind_Ok _ _ _ _ _ (deref_Some components self c w Hc)), Hr.
  apply bind_Raise. apply bind_Raise. now apply init_component_taken.
Qed.

(** X2. A component whose [first_run] flag is set, on a registry where
    [Doc._s2v] already exists (another component registered it): [__call__]
    raises spaCy's E090 before anything is written.  The flag stays set, no
    document is stamped, and every later call fails the same way: such a
    component never becomes usable. *)
Theorem second_component_cannot_register self c w :
  components w !! self = Some c ->
  first_run c = true ->
  has_extension (extensions w) KDoc "_s2v" = true ->
  (forall d,
     __call__ util_merge_phrases self d w = (Raise (ValueError_E090 KDoc "_s2v"), w))
  /\ forall ds, process_all util_merge_phrases self ds w = w.
Proof.
  intros Hc Hr Hx. split.
  - intros d. now apply call_taken with (c := c).
  - intros ds. induction ds as [|d ds IH]; [reflexivity|].
    cbn [process_all]. rewrite (call_taken self c d w Hc Hr Hx). exact IH.
Qed.

(** X3. Registration is not atomic.  When the two [Doc] names are free but
    [Token.s2v_key] is taken, the first [__call__] registers the two [Doc]
    extensions, then raises E090 on [Token.s2v_key]; [first_run] is still
    set and no document is stamped.  The next call then raises on
    [Doc._s2v], which the failed attempt itself registered. *)
Theorem failed_registration_is_partial_and_permanent self c d d' w :
  components w !! self = Some c ->
  first_run c = true ->
  has_extension (extensions w) KDoc "_s2v" = false ->
  has_extension (extensions w) KDoc "s2v_phrases" = false ->
  has_extension (extensions w) KToken "s2v_key" = true ->
  let r := __call__ util_merge_phrases self d w in
  fst r = Raise (ValueError_E090 KToken "s2v_key")
  /\ extensions (snd r)
     = extensions w ++ [mkExt KDoc "_s2v" ExtDefault;
                        mkExt KDoc "s2v_phrases" (ExtGetter None "get_phrases")]
  /\ components (snd r) = components w
  /\ docs (snd r) = docs w
  /\ __call__ util_merge_phrases self d' (snd r)
     = (Raise (ValueError_E090 KDoc "_s2v"), snd r).
Proof.
  intros Hc Hr H1 H2 H3 r.
  assert (Hrun : __call__ util_merge_phrases self d w
    = (Raise (ValueError_E090 KToken "s2v_key"),
       set_extensions w
         (extensions w ++ [mkExt KDoc "_s2v" ExtDefault;
                           mkExt KDoc "s2v_phrases" (ExtGetter None "get_phrases")]))).
  { unfold __call__.
    rewrite (bind_Ok _ _ _ _ _ (deref_Some components self c w Hc)), Hr.
    apply bind_Raise. apply bind_Raise.
    unfold init_component, for_each, register_accessors.
    replace w with (set_extensions w (extensions w)) at 1 by (now destruct w).
    erewrite (bind_Ok (set_extension KDoc "_s2v" ExtDefault))
      by (apply set_extension_step; exact H1).
    erewrite (bind_Ok (set_extension KDoc "s2v_phrases" (ExtGetter None "get_phrases")))
      by (apply set_extension_step; apply has_extension_snoc_false;
          [exact H2 | vm_compute; reflexivity]).
    rewrite <- app_assoc. cbn [app].
    apply bind_Raise. rewrite ?bind_assoc. apply bind_Raise.
    apply set_extension_taken. cbn [extensions set_extensions].
    rewrite has_extension_app, H3. reflexivity. }
  subst r. rewrite Hrun. cbn [fst snd].
  split; [reflexivity|]. split; [reflexivity|]. split; [reflexivity|].
  split; [reflexivity|].
  apply call_taken with (c := c); [exact Hc | exact Hr |].
  cbn [extensions set_extensions]. rewrite has_extension_app.
  apply orb_true_iff. right. vm_compute. reflexivity.
Qed.

(** ** Processing without merging *)

Ltac heap_simpl :=
  cbn [extensions docs stores components disk set_extensions set_docs set_stores
       set_components set_disk fst snd first_run merge_phrases s2v doc_words _s2v].

Ltac heap_simpl_in H :=
  cbn [extensions docs stores components disk set_extensions set_docs set_stores
       set_components set_disk fst snd first_run merge_phrases s2v doc_words _s2v] in H.

(** The outcome of [__call__] with merge mode off. *)
Lemma call_no_merge self c d dd w :
  components w !! self = Some c ->
  merge_phrases c = false ->
  can_stamp w c = true ->
  docs w !! d = Some dd ->
  __call__ util_merge_phrases self d w
  = (Ok d,
     set_docs
       (if first_run c
        then set_components
               (set_extensions w (extensions w ++ component_extensions self))
               (<[self := mkComp (s2v c) false false]> (components w))
        else w)
       (<[d := mkDoc (doc_words dd) (Some (s2v c))]> (docs w))).
Proof.
  intros Hc Hm Hs Hd. unfold can_stamp in Hs. destruct (first_run c) eqn:Hr.
  - rewrite (call_first self d w c Hc Hr Hs), Hm.
    rewrite (stamp_and_merge_run self (mkComp (s2v c) false false) d dd).
    + reflexivity.
    + cbn [extensions set_components set_extensions]. rewrite has_extension_app.
      apply orb_true_iff. right. vm_compute. reflexivity.
    + cbn [components set_components]. apply list_lookup_insert_eq.
      eapply lookup_lt_Some; exact Hc.
    + exact Hd.
  - rewrite (call_ready self d w c Hc Hr).
    rewrite (stamp_and_merge_run self c d dd w Hs Hc Hd), Hm. reflexivity.
Qed.


(** X5. Stamping overwrites, it does not accumulate: with merge mode off,
    processing a document a second time returns it again and leaves the
    heap exactly as the first processing left it. *)
Theorem call_twice_is_call_once self c d dd w :
  components w !! self = Some c ->
  merge_phrases c = false ->
  can_stamp w c = true ->
  docs w !! d = Some dd ->
  let w1 := snd (__call__ util_merge_phrases self d w) in
  __call__ util_merge_phrases self d w1 = (Ok d, w1).
Proof.
  intros Hc Hm Hs Hd w1. subst w1.
  assert (Hlt : (d < length (docs w))%nat) by (eapply lookup_lt_Some; exact Hd).
  assert (Hlc : (self < length (components w))%nat) by (eapply lookup_lt_Some; exact Hc).
  rewrite (call_no_merge self c d dd w Hc Hm Hs Hd). cbn [snd].
  unfold can_stamp in Hs. destruct (first_run c) eqn:Hr.
  - rewrite (call_no_merge self (mkComp (s2v c) false false) d
               (mkDoc (doc_words dd) (Some (s2v c)))).
    + heap_simpl. rewrite list_insert_insert_eq. reflexivity.
    + heap_simpl. now apply list_lookup_insert_eq.
    + reflexivity.
    + unfold can_stamp. heap_simpl. rewrite has_extension_app.
      apply orb_true_iff. right. vm_compute. reflexivity.
    + heap_simpl. now apply list_lookup_insert_eq.
  - rewrite (call_no_merge self c d (mkDoc (doc_words dd) (Some (s2v c)))).
    + rewrite Hr. heap_simpl. rewrite list_insert_insert_eq. reflexivity.
    + exact Hc.
    + exact Hm.
    + unfold can_stamp. rewrite Hr. exact Hs.
    + heap_simpl. now apply list_lookup_insert_eq.
Qed.



(** ** Looking up after processing *)

Lemma lookups_on_bound self c o r st w :
  components w !! self = Some c ->
  bound_to w o r st ->
  let key := make_spacy_key o (Sense2Vec_make_key st) (merge_phrases c) in
  in_s2v self o w = (result_bind key (fun k => Ok (Sense2Vec_contains st k)), w)
  /\ s2v_vec self o w = (result_bind key (Sense2Vec_getitem st), w)
  /\ s2v_freq self o w = (result_bind key (Sense2Vec_get_freq st), w).
Proof.
  intros Hc Hb key.
  pose proof (s2v_key_bound self c o r st w Hc Hb) as Hkey. fold key in Hkey.
  pose proof (Doc_get_bound o r st w Hb) as Hg.
  destruct Hb as (_ & _ & Hst).
  split; [|split].
  - unfold in_s2v. destruct key as [k|e].
    + rewrite (bind_Ok _ _ _ _ _ Hkey), (bind_Ok _ _ _ _ _ Hg).
      unfold operand_store. erewrite bind_Ok by reflexivity.
      exact (call_store_Some r st (fun st => Ok (Sense2Vec_contains st k)) w Hst).
    + exact (bind_Raise _ _ _ _ _ Hkey).
  - unfold s2v_vec. rewrite (bind_Ok _ _ _ _ _ Hg). destruct key as [k|e].
    + rewrite (bind_Ok _ _ _ _ _ Hkey).
      unfold operand_store. erewrite bind_Ok by reflexivity.
      exact (call_store_Some r st (fun st => Sense2Vec_getitem st k) w Hst).
    + exact (bind_Raise _ _ _ _ _ Hkey).
  - unfold s2v_freq. rewrite (bind_Ok _ _ _ _ _ Hg).
    unfold getattr_store. erewrite bind_Ok by reflexivity. destruct key as [k|e].
    + rewrite (bind_Ok _ _ _ _ _ Hkey).
      exact (call_store_Some r st (fun st => Sense2Vec_get_freq st k) w Hst).
    + exact (bind_Raise _ _ _ _ _ Hkey).
Qed.

Lemma bound_after_call self c o dd st w :
  components w !! self = Some c ->
  merge_phrases c = false ->
  can_stamp w c = true ->
  docs w !! doc o = Some dd ->
  stores w !! s2v c = Some st ->
  let w' := snd (__call__ util_merge_phrases self (doc o) w) in
  bound_to w' o (s2v c) st
  /\ merge_phrases <$> components w' !! self = Some false.
Proof.
  intros Hc Hm Hs Hd Hst w'. subst w'.
  rewrite (call_no_merge self c (doc o) dd w Hc Hm Hs Hd). cbn [snd].
  assert (Hlt : (doc o < length (docs w))%nat) by (eapply lookup_lt_Some; exact Hd).
  assert (Hlc : (self < length (components w))%nat) by (eapply lookup_lt_Some; exact Hc).
  unfold bound_to, binding_of. unfold can_stamp in Hs.
  destruct (first_run c); heap_simpl.
  - rewrite !list_lookup_insert_eq by assumption.
    rewrite has_extension_app. repeat split; auto.
    apply orb_true_iff. right. vm_compute. reflexivity.
  - rewrite list_lookup_insert_eq by assumption. rewrite Hc. simpl.
    rewrite Hm. repeat split; auto.
Qed.

(** X7. Processing makes the lookups work, against the component's own
    store: with merge mode off, once [__call__] has run on the document of
    a token or span, [in_s2v], [s2v_vec] and [s2v_freq] on it give exactly
    the store's membership test, row and count for the object's key, and
    they leave the heap alone. *)
Theorem lookups_after_processing self c o dd st key w :
  components w !! self = Some c ->
  merge_phrases c = false ->
  can_stamp w c = true ->
  docs w !! doc o = Some dd ->
  stores w !! s2v c = Some st ->
  make_spacy_key o (Sense2Vec_make_key st) false = Ok key ->
  let w' := snd (__call__ util_merge_phrases self (doc o) w) in
  s2v_key self o w' = (Ok key, w')
  /\ in_s2v self o w' = (Ok (Sense2Vec_contains st key), w')
  /\ s2v_vec self o w' = (Sense2Vec_getitem st key, w')
  /\ s2v_freq self o w' = (Sense2Vec_get_freq st key, w').
Proof.
  intros Hc Hm Hs Hd Hst Hk w'.
  destruct (bound_after_call self c o dd st w Hc Hm Hs Hd Hst) as [Hb Hm'].
  fold w' in Hb, Hm'.
  destruct (components w' !! self) as [c'|] eqn:Hc'; [|discriminate].
  cbn in Hm'. injection Hm' as Hm'.
  destruct (lookups_on_bound self c' o (s2v c) st w' Hc' Hb) as (H1 & H2 & H3).
  rewrite Hm', Hk in H1, H2, H3. cbn [result_bind] in H1, H2, H3.
  repeat split; try assumption.
  rewrite (s2v_key_bound self c' o (s2v c) st w' Hc' Hb), Hm', Hk. reflexivity.
Qed.

(** ** Loading: failure, and processing afterwards *)

Lemma failed_load_frame_intro w :
  failed_load_frame default_shape w
    (Raise StoreLoadError, set_stores w (stores w ++ [Sense2Vec_new default_shape None])).
Proof.
  unfold failed_load_frame. heap_simpl. repeat split; try reflexivity.
  - destruct H as (Hx & _). exact Hx.
  - destruct H as (_ & Hb & _). exact Hb.
  - destruct H as (_ & _ & Hst). heap_simpl. now apply lookup_app_l_Some.
Qed.

(** X8. A load that fails (unreadable bytes, nothing under the path) raises
    the store's error before the component is assigned to: the component
    keeps its store and flags, documents and registry are untouched, and
    every bound token or span is still bound to the same store, so its
    lookups give what they gave before the attempt. *)
Theorem failed_load_changes_nothing self c w :
  components w !! self = Some c ->
  (forall data, msgpack_loads data = None ->
     failed_load_frame default_shape w (from_bytes msgpack_loads default_shape self data w))
  /\ (forall path, disk w !! path = None ->
     failed_load_frame default_shape w (from_disk default_shape self path w))
  /\ forall r, failed_load_frame default_shape w r ->
       forall o r0 st, bound_to w o r0 st ->
         fst (in_s2v self o (snd r)) = fst (in_s2v self o w)
         /\ fst (s2v_vec self o (snd r)) = fst (s2v_vec self o w)
         /\ fst (s2v_freq self o (snd r)) = fst (s2v_freq self o w).
Proof.
  intros Hc. split; [|split].
  - intros data Hn. rewrite (from_bytes_run self c data w Hc), Hn.
    apply failed_load_frame_intro.
  - intros path Hn. rewrite (from_disk_run self c path w Hc), Hn.
    apply failed_load_frame_intro.
  - intros r (_ & Hcs & _ & _ & _ & _ & Hkeep) o r0 st Hb.
    assert (Hc' : components (snd r) !! self = Some c) by now rewrite Hcs.
    destruct (lookups_on_bound self c o r0 st w Hc Hb) as (H1 & H2 & H3).
    destruct (lookups_on_bound self c o r0 st (snd r) Hc' (Hkeep o r0 st Hb))
      as (H1' & H2' & H3').
    rewrite H1, H2, H3, H1', H2', H3'. repeat split; reflexivity.
Qed.

(** X9. Loading and then processing: with merge mode off, a document
    processed after a successful [from_disk] is returned bound to the store
    the load created, whatever it was bound to before; the registry is not
    touched again, other documents keep their binding, and [s2v_vec] on a
    token or span of the document now answers from the loaded rows. *)
Theorem processing_after_load_rebinds self c d dd path m w :
  components w !! self = Some c ->
  merge_phrases c = false ->
  first_run c = false ->
  has_extension (extensions w) KDoc "_s2v" = true ->
  docs w !! d = Some dd ->
  disk w !! path = Some m ->
  let loaded := Sense2Vec_of_msg (Sense2Vec_new default_shape None) m ["strings"] in
  let w1 := snd (from_disk default_shape self path w) in
  let r := __call__ util_merge_phrases self d w1 in
  fst r = Ok d
  /\ extensions (snd r) = extensions w
  /\ binding_of (snd r) d = Some (length (stores w))
  /\ stores (snd r) !! length (stores w) = Some loaded
  /\ (forall d', d' <> d -> binding_of (snd r) d' = binding_of w d')
  /\ forall o key,
       doc o = d ->
       make_spacy_key o (Sense2Vec_make_key loaded) false = Ok key ->
       s2v_vec self o (snd r)
       = (match msg_vectors m !! key with
          | Some v => Ok v
          | None => Raise (KeyNotFound key)
          end, snd r).
Proof.
  intros Hc Hm Hr Hx Hd Hp loaded w1 r.
  assert (Hlc : (self < length (components w))%nat) by (eapply lookup_lt_Some; exact Hc).
  assert (Hld : (d < length (docs w))%nat) by (eapply lookup_lt_Some; exact Hd).
  assert (Hw1 : w1 = set_components (set_stores w (stores w ++ [loaded]))
                       (<[self := mkComp (length (stores w)) false false]> (components w))).
  { subst w1. rewrite (from_disk_run self c path w Hc), Hp, Hr, Hm. reflexivity. }
  set (c1 := mkComp (length (stores w)) false false).
  assert (Hc1 : components w1 !! self = Some c1).
  { rewrite Hw1. heap_simpl. now apply list_lookup_insert_eq. }
  assert (Hs1 : can_stamp w1 c1 = true).
  { rewrite Hw1. unfold can_stamp. heap_simpl. exact Hx. }
  assert (Hd1 : docs w1 !! d = Some dd) by (rewrite Hw1; exact Hd).
  assert (Hst1 : stores w1 !! s2v c1 = Some loaded).
  { rewrite Hw1. heap_simpl. rewrite lookup_app_r by reflexivity.
    now rewrite Nat.sub_diag. }
  assert (Hrun := call_no_merge self c1 d dd w1 Hc1 eq_refl Hs1 Hd1).
  fold r in Hrun. heap_simpl_in Hrun.
  split; [now rewrite Hrun|]. split; [now rewrite Hrun, Hw1|].
  split.
  { rewrite Hrun. unfold binding_of. heap_simpl. rewrite Hw1. heap_simpl.
    now rewrite list_lookup_insert_eq. }
  split.
  { rewrite Hrun. heap_simpl. exact Hst1. }
  split.
  { intros d' Hne. rewrite Hrun. unfold binding_of. heap_simpl. rewrite Hw1. heap_simpl.
    rewrite list_lookup_insert_ne by congruence. reflexivity. }
  intros o key Ho Hk. subst d.
  destruct (bound_after_call self c1 o dd loaded w1 Hc1 eq_refl Hs1 Hd1 Hst1) as [Hb Hm'].
  fold r in Hb, Hm'.
  destruct (components (snd r) !! self) as [c'|] eqn:Hc'; [|discriminate].
  cbn in Hm'. injection Hm' as Hm'.
  destruct (lookups_on_bound self c' o (s2v c1) loaded (snd r) Hc' Hb) as (_ & H2 & _).
  rewrite Hm', Hk in H2. cbn [result_bind] in H2. rewrite H2.
  unfold Sense2Vec_getitem, loaded. rewrite of_msg_excludes_strings. reflexivity.
Qed.

(** X10. Saving to a directory and loading it back: the component ends up
    on a new store object with the shape, rows and counts of the one it
    saved, but with an empty string table (the table is excluded both ways
    and the new store is built without one); the store it saved from is
    still there, unchanged. *)
Theorem disk_round_trip_keeps_rows_not_strings self c st path w :
  components w !! self = Some c ->
  stores w !! s2v c = Some st ->
  let w1 := snd (to_disk self path w) in
  let r := from_disk default_shape self path w1 in
  fst r = Ok self
  /\ s2v <$> components (snd r) !! self = Some (length (stores w))
  /\ stores (snd r) !! length (stores w)
     = Some (mkS2V (shape st) [] (vectors st) (freqs st))
  /\ stores (snd r) !! s2v c = Some st
  /\ disk (snd r) !! path = Some (mkMsg (shape st) (vectors st) (freqs st) None).
Proof.
  intros Hc Hst w1 r.
  assert (Hlc : (self < length (components w))%nat) by (eapply lookup_lt_Some; exact Hc).
  assert (Hw1 : w1 = set_disk w (<[path := Sense2Vec_to_msg st ["strings"]]> (disk w))).
  { subst w1. unfold to_disk, Sense2Vec_to_disk_call.
    rewrite (bind_Ok _ _ _ _ _ (deref_Some components self c w Hc)).
    rewrite (bind_Ok _ _ _ _ _ (deref_Some stores (s2v c) st w Hst)). reflexivity. }
  assert (Hc1 : components w1 !! self = Some c) by (rewrite Hw1; exact Hc).
  subst r. rewrite (from_disk_run self c path w1 Hc1).
  rewrite Hw1. heap_simpl. rewrite lookup_insert_eq. heap_simpl.
  rewrite of_msg_excludes_strings, to_msg_excludes_strings. cbn.
  split; [reflexivity|]. split.
  { now rewrite list_lookup_insert_eq. }
  split.
  { rewrite lookup_app_r by reflexivity. now rewrite Nat.sub_diag. }
  split.
  { now apply lookup_app_l_Some. }
  apply lookup_insert_eq.
Qed.

(** X11. A component built by [from_nlp] starts on an empty store that
    carries the pipeline's string table, and registers nothing; after its
    first [__call__] (free registry, merge mode off) the document's tokens
    and spans are bound to that store, so [in_s2v] is [False] for each of
    them and [s2v_vec] raises the store's KeyNotFound. *)
Theorem component_from_nlp_starts_empty (nlp_vocab : Vocab) (shp : Z * Z) o dd key w :
  fresh_registry (extensions w) = true ->
  docs w !! doc o = Some dd ->
  let self := length (components w) in
  let st := mkS2V shp (vocab_strings nlp_vocab) (∅ : gmap string Vector) ∅ in
  make_spacy_key o (Sense2Vec_make_key st) false = Ok key ->
  let w1 := snd (from_nlp nlp_vocab shp false w) in
  let w2 := snd (__call__ util_merge_phrases self (doc o) w1) in
  fst (from_nlp nlp_vocab shp false w) = Ok self
  /\ extensions w1 = extensions w
  /\ stores w1 !! length (stores w) = Some st
  /\ extensions w2 = extensions w ++ component_extensions self
  /\ in_s2v self o w2 = (Ok false, w2)
  /\ s2v_vec self o w2 = (Raise (KeyNotFound key), w2).
Proof.
  intros Hf Hd self st Hk w1 w2.
  assert (Hw1 : from_nlp nlp_vocab shp false w
    = (Ok self, set_components (set_stores w (stores w ++ [st]))
                  (components w ++ [mkComp (length (stores w)) true false]))).
  { unfold from_nlp, __init__. run_monad. reflexivity. }
  set (c1 := mkComp (length (stores w)) true false).
  assert (Hc1 : components w1 !! self = Some c1).
  { subst w1. rewrite Hw1. heap_simpl. rewrite lookup_app_r by reflexivity.
    subst self. now rewrite Nat.sub_diag. }
  assert (Hs1 : can_stamp w1 c1 = true).
  { subst w1. rewrite Hw1. unfold can_stamp. heap_simpl. exact Hf. }
  assert (Hd1 : docs w1 !! doc o = Some dd) by (subst w1; rewrite Hw1; exact Hd).
  assert (Hst1 : stores w1 !! s2v c1 = Some st).
  { subst w1. rewrite Hw1. heap_simpl. rewrite lookup_app_r by reflexivity.
    now rewrite Nat.sub_diag. }
  destruct (bound_after_call self c1 o dd st w1 Hc1 eq_refl Hs1 Hd1 Hst1) as [Hb Hm'].
  fold w2 in Hb, Hm'.
  destruct (components w2 !! self) as [c'|] eqn:Hc'; [|discriminate].
  cbn in Hm'. injection Hm' as Hm'.
  destruct (lookups_on_bound self c' o (s2v c1) st w2 Hc' Hb) as (H1 & H2 & _).
  rewrite Hm', Hk in H1, H2. cbn [result_bind] in H1, H2.
  split; [now rewrite Hw1|]. split; [subst w1; now rewrite Hw1|].
  split; [exact Hst1|]. split.
  { subst w2. rewrite (call_no_merge self c1 (doc o) dd w1 Hc1 eq_refl Hs1 Hd1).
    heap_simpl. subst w1. rewrite Hw1. reflexivity. }
  split; [exact H1|exact H2].
Qed.

(** ** Other senses and re-serialization *)

(** X12. As long as no [_s2v] extension exists on the class of the object
    (the component registers the name on [Doc] only), [s2v_other_senses]
    never returns a list, whatever the store holds and whether or not the
    document was processed; where the key could be built it raises spaCy's
    E046 for the object's class, and it leaves the heap alone. *)
Theorem other_senses_never_answers self o w :
  has_extension (extensions w) (kind_of o) "_s2v" = false ->
  (forall res, fst (s2v_other_senses Sense2Vec_get_other_senses self o w) <> Ok res)
  /\ (forall key, fst (s2v_key self o w) = Ok key ->
        s2v_other_senses Sense2Vec_get_other_senses self o w
        = (Raise (AttributeError_E046 (kind_of o) "_s2v"), w)).
Proof.
  intros Hx.
  assert (Hget : Obj_get__s2v o w = (Raise (AttributeError_E046 (kind_of o) "_s2v"), w)).
  { unfold Obj_get__s2v. run_monad. now rewrite Hx. }
  pose proof (s2v_key_reads self o w) as Hw.
  destruct (s2v_key self o w) as [[k|e] w'] eqn:Hk; cbn [snd] in Hw; subst w'.
  - assert (Hrun : s2v_other_senses Sense2Vec_get_other_senses self o w
                   = (Raise (AttributeError_E046 (kind_of o) "_s2v"), w)).
    { unfold s2v_other_senses. rewrite (bind_Ok _ _ _ _ _ Hk).
      exact (bind_Raise _ _ _ _ _ Hget). }
    split.
    + intros res. rewrite Hrun. discriminate.
    + intros key _. exact Hrun.
  - split.
    + intros res. unfold s2v_other_senses. rewrite (bind_Raise _ _ _ _ _ Hk).
      discriminate.
    + intros key Habs. discriminate Habs.
Qed.

(** X13. Loading bytes and serializing again: after a successful
    [from_bytes], [to_bytes] writes the shape, rows and counts that were
    loaded, without a string section even when the loaded payload had
    one. *)
Theorem to_bytes_after_from_bytes self c data m w :
  components w !! self = Some c ->
  msgpack_loads data = Some m ->
  let w1 := snd (from_bytes msgpack_loads default_shape self data w) in
  to_bytes msgpack_dumps self w1
  = (Ok (msgpack_dumps (mkMsg (msg_shape m) (msg_vectors m) (msg_freqs m) None)), w1).
Proof.
  intros Hc Hm w1.
  assert (Hlc : (self < length (components w))%nat) by (eapply lookup_lt_Some; exact Hc).
  assert (Hw1 : w1 = set_components
            (set_stores w
               (stores w ++ [Sense2Vec_of_msg (Sense2Vec_new default_shape None) m ["strings"]]))
            (<[self := mkComp (length (stores w)) (first_run c) (merge_phrases c)]>
               (components w))).
  { subst w1. rewrite (from_bytes_run self c data w Hc), Hm. reflexivity. }
  unfold to_bytes.
  erewrite bind_Ok
    by (apply deref_Some; rewrite Hw1; heap_simpl; now apply list_lookup_insert_eq).
  heap_simpl.
  erewrite call_store_Some
    by (rewrite Hw1; heap_simpl; rewrite lookup_app_r by reflexivity;
        now rewrite Nat.sub_diag).
  unfold Sense2Vec_to_bytes.
  rewrite to_msg_excludes_strings, of_msg_excludes_strings. reflexivity.
Qed.

End Properties.

(** * Concrete runs *)

(** C3. A token of a processed document whose key the store holds, with
    another sense on record: the vector and the frequency are found through
    the document's binding, and the store would answer the other-senses
    query, but [s2v_other_senses] raises: it looks for the binding on the
    token, where no [_s2v] extension exists.  A span fares the same. *)
Theorem other_senses_fails_on_a_processed_document :
  let w := Ex.w_ready false in
  binding_of w (doc Ex.dog) = Some 1%nat
  /\ stores w !! 1%nat = Some Ex.store
  /\ fst (s2v_key 0 Ex.dog w) = Ok "dog|NOUN"
  /\ fst (in_s2v 0 Ex.dog w) = Ok true
  /\ fst (s2v_vec 0 Ex.dog w) = Ok [1; 2]%Z
  /\ fst (s2v_freq 0 Ex.dog w) = Ok 42%Z
  /\ Ex.get_other_senses Ex.store "dog|NOUN" = Ok ["dog|VERB"]
  /\ fst (s2v_other_senses Ex.get_other_senses 0 Ex.dog w)
     = Raise (AttributeError_E046 KToken "_s2v")
  /\ fst (s2v_other_senses Ex.get_other_senses 0 Ex.new_york w)
     = Raise (AttributeError_E046 KSpan "_s2v").
Proof. vm_compute. repeat split; reflexivity. Qed.


Example second_component_first_call :
  first_run_of Ex.w_second 1 = Some true
  /\ __call__ Ex.merge_in_place 1 0 Ex.w_second
     = (Raise (ValueError_E090 KDoc "_s2v"), Ex.w_second).
Proof. vm_compute. split; reflexivity. Qed.


Example call_and_specified_order_differ :
  let r := __call__ Ex.merge_rebuild 0 1 (Ex.w_ready true) in
  let r' := process_merge_then_stamp Ex.merge_rebuild 0 1 (Ex.w_ready true) in
  fst r = Ok 2%nat /\ fst r' = Ok 2%nat
  /\ binding_of (snd r) 1 = Some 1%nat /\ binding_of (snd r) 2 = None
  /\ binding_of (snd r') 1 = None /\ binding_of (snd r') 2 = Some 1%nat.
Proof. vm_compute. repeat split; reflexivity. Qed.

Example call_and_specified_order_agree_in_place :
  __call__ Ex.merge_in_place 0 1 (Ex.w_ready true)
  = process_merge_then_stamp Ex.merge_in_place 0 1 (Ex.w_ready true).
Proof. vm_compute. reflexivity. Qed.

(** C6 fails as stated: with [n = 0], and with a negative [n], the call
    returns the store's (empty) answer and raises nothing. *)
Lemma most_similar_accepts_nonpositive_n :
  ~ (forall n : Z, (n <= 0)%Z ->
       fst (s2v_most_similar Ex.most_similar 0 Ex.dog n (Ex.w_ready false))
       = Raise InvalidArgument).
Proof.
  intros H. specialize (H 0%Z ltac:(lia)). vm_compute in H. discriminate H.
Qed.

Example most_similar_at_zero_and_below :
  fst (s2v_most_similar Ex.most_similar 0 Ex.dog 0 (Ex.w_ready false)) = Ok []
  /\ fst (s2v_most_similar Ex.most_similar 0 Ex.dog (-3) (Ex.w_ready false)) = Ok [].
Proof. vm_compute. split; reflexivity. Qed.

(** The specification's merge-mode example. *)
Example new_york_keys :
  fst (s2v_key 0 Ex.new_york (Ex.w_ready true)) = Ok "new_york|GPE"
  /\ fst (s2v_key 0 Ex.new_york (Ex.w_ready false)) = Ok "new_york|PROPN".
Proof. vm_compute. split; reflexivity. Qed.

(** ** The theorems at work on the example heaps *)

Lemma bound_dog (m : bool) : bound_to (Ex.w_ready m) Ex.dog 1 Ex.store.
Proof. destruct m; vm_compute; repeat split; reflexivity. Defined.


Lemma accessors_fail_on_unbound_document_witness :
  docs (Ex.w_ready false) !! doc Ex.stray = Some (mkDoc ["New"; "York"] None)
  /\ raises_UnboundDocument (fst (in_s2v 0 Ex.stray (Ex.w_ready false)))
  /\ raises_UnboundDocument (fst (s2v_vec 0 Ex.stray (Ex.w_ready false)))
  /\ raises_UnboundDocument (fst (s2v_freq 0 Ex.stray (Ex.w_ready false)))
  /\ raises_UnboundDocument
       (fst (s2v_most_similar Ex.most_similar 0 Ex.stray 3 (Ex.w_ready false)))
  /\ raises_UnboundDocument
       (fst (s2v_other_senses Ex.get_other_senses 0 Ex.stray (Ex.w_ready false))).
Proof.
  assert (Hd : docs (Ex.w_ready false) !! doc Ex.stray
               = Some (mkDoc ["New"; "York"] None)) by (vm_compute; reflexivity).
  split; [exact Hd|].
  exact (accessors_fail_on_unbound_document Ex.most_similar Ex.get_other_senses
           0 Ex.stray _ 3 (Ex.w_ready false) Hd eq_refl).
Defined.

Lemma sense_component_policy_witness :
  components (Ex.w_ready true) !! 0%nat = Some (mkComp 1 false true)
  /\ fst (s2v_key 0 Ex.new_york (Ex.w_ready true)) = Ok "new_york|GPE"
  /\ key_sense "new_york|GPE" = Some "GPE"
  /\ fst (s2v_key 0 Ex.dog (Ex.w_ready true)) = Ok "dog|NOUN".
Proof.
  assert (Hc : components (Ex.w_ready true) !! 0%nat = Some (mkComp 1 false true))
    by (vm_compute; reflexivity).
  assert (Hb : bound_to (Ex.w_ready true) Ex.new_york 1 Ex.store)
    by (vm_compute; repeat split; reflexivity).
  destruct (sense_component_policy 0 _ Ex.new_york 1 Ex.store (Ex.w_ready true) Hc Hb)
    as [Hent _].
  destruct (Hent "gpe" eq_refl eq_refl ltac:(vm_compute; discriminate)) as [Hk Hs].
  destruct (sense_component_policy 0 _ Ex.dog 1 Ex.store (Ex.w_ready true) Hc
              (bound_dog true)) as [_ Htag].
  destruct (Htag (or_intror eq_refl) ltac:(vm_compute; discriminate)) as [Hk' _].
  split; [exact Hc|]. split; [exact Hk|]. split; [exact (Hs eq_refl)|exact Hk'].
Defined.

Lemma missing_key_is_a_hard_error_witness :
  vectors Ex.store !! "cat|NOUN" = None
  /\ s2v_vec 0 Ex.cat (Ex.w_ready false)
     = (Raise (KeyNotFound "cat|NOUN"), Ex.w_ready false)
  /\ in_s2v 0 Ex.cat (Ex.w_ready false) = (Ok false, Ex.w_ready false).
Proof.
  assert (Hv : vectors Ex.store !! "cat|NOUN" = None) by (vm_compute; reflexivity).
  assert (Hc : components (Ex.w_ready false) !! 0%nat = Some (mkComp 1 false false))
    by (vm_compute; reflexivity).
  assert (Hb : bound_to (Ex.w_ready false) Ex.cat 1 Ex.store)
    by (vm_compute; repeat split; reflexivity).
  assert (Hk : fst (s2v_key 0 Ex.cat (Ex.w_ready false)) = Ok "cat|NOUN")
    by (vm_compute; reflexivity).
  destruct (missing_key_is_a_hard_error 0 _ Ex.cat 1 Ex.store "cat|NOUN"
              (Ex.w_ready false) Hc Hb Hk Hv) as (H1 & _ & H3).
  split; [exact Hv|]. split; [exact H1|exact H3].
Defined.


Lemma most_similar_forwards_n_witness :
  stores (Ex.w_ready false) !! 1%nat = Some Ex.store
  /\ s2v_most_similar Ex.most_similar 0 Ex.dog 1 (Ex.w_ready false)
     = (Ok [(("wolf", "NOUN"), 9%Z)], Ex.w_ready false).
Proof.
  assert (Hc : components (Ex.w_ready false) !! 0%nat = Some (mkComp 1 false false))
    by (vm_compute; reflexivity).
  assert (Hst : stores (Ex.w_ready false) !! 1%nat = Some Ex.store)
    by (vm_compute; reflexivity).
  assert (Hk : fst (s2v_key 0 Ex.dog (Ex.w_ready false)) = Ok "dog|NOUN")
    by (vm_compute; reflexivity).
  destruct (most_similar_forwards_n Ex.most_similar 0 _ Ex.dog 1 Ex.store Ex.store
              "dog|NOUN" 1 (Ex.w_ready false) Hc (bound_dog false) Hst Hk) as [Hrun _].
  split; [exact Hst|exact Hrun].
Defined.

Lemma serialization_passes_through_without_strings_witness :
  components (Ex.w_ready true) !! 0%nat = Some (mkComp 1 false true)
  /\ to_bytes Ex.dumps 0 (Ex.w_ready true) = (Ok [Byte.x00], Ex.w_ready true)
  /\ fst (from_bytes Ex.loads (1000, 128)%Z 0 [Byte.x01] (Ex.w_ready true)) = Ok 0%nat
  /\ fst (from_disk (1000, 128)%Z 0 "nowhere" (Ex.w_ready true)) = Raise StoreLoadError.
Proof.
  assert (Hc : components (Ex.w_ready true) !! 0%nat = Some (mkComp 1 false true))
    by (vm_compute; reflexivity).
  assert (Hst : stores (Ex.w_ready true) !! 1%nat = Some Ex.store)
    by (vm_compute; reflexivity).
  destruct (serialization_passes_through_without_strings Ex.dumps Ex.loads
              (1000, 128)%Z 0 _ Ex.store (Ex.w_ready true) Hc Hst)
    as ((Hb & _) & _ & Hfb & Hfd).
  destruct (Hfb [Byte.x01]) as (Hok & _).
  destruct (Hfd "nowhere") as (Hno & _).
  split; [exact Hc|]. split; [exact Hb|]. split; [exact Hok|exact Hno].
Defined.

Lemma loading_changes_only_the_store_reference_witness :
  Ex.loads [Byte.x01] = Some Ex.model
  /\ load_frame (Ex.w_ready true) 0 (mkComp 1 false true)
       (from_bytes Ex.loads (1000, 128)%Z 0 [Byte.x01] (Ex.w_ready true))
  /\ load_frame (Ex.w_ready true) 0 (mkComp 1 false true)
       (from_disk (1000, 128)%Z 0 "model" (Ex.w_ready true)).
Proof.
  assert (Hc : components (Ex.w_ready true) !! 0%nat = Some (mkComp 1 false true))
    by (vm_compute; reflexivity).
  destruct (loading_changes_only_the_store_reference Ex.loads (1000, 128)%Z 0 _
              (Ex.w_ready true) Hc) as [Hb Hd].
  split; [reflexivity|]. split.
  - exact (Hb [Byte.x01] Ex.model eq_refl).
  - apply (Hd "model" Ex.model). vm_compute. reflexivity.
Defined.

(** ** The further properties on the example heaps *)

Lemma second_component_cannot_register_witness :
  components Ex.w_second !! 1%nat = Some (mkComp 2 true false)
  /\ has_extension (extensions Ex.w_second) KDoc "_s2v" = true
  /\ __call__ Ex.merge_in_place 1 0 Ex.w_second
     = (Raise (ValueError_E090 KDoc "_s2v"), Ex.w_second)
  /\ process_all Ex.merge_in_place 1 [0; 1; 0]%nat Ex.w_second = Ex.w_second.
Proof.
  assert (Hc : components Ex.w_second !! 1%nat = Some (mkComp 2 true false))
    by (vm_compute; reflexivity).
  assert (Hx : has_extension (extensions Ex.w_second) KDoc "_s2v" = true)
    by (vm_compute; reflexivity).
  destruct (second_component_cannot_register Ex.merge_in_place 1 _ Ex.w_second
              Hc eq_refl Hx) as [H1 H2].
  split; [exact Hc|]. split; [exact Hx|]. split; [exact (H1 0%nat)|exact (H2 _)].
Defined.

Lemma failed_registration_is_partial_and_permanent_witness :
  components Ex.w_taken !! 0%nat = Some (mkComp 1 true false)
  /\ has_extension (extensions Ex.w_taken) KToken "s2v_key" = true
  /\ fst (__call__ Ex.merge_in_place 0 0 Ex.w_taken)
     = Raise (ValueError_E090 KToken "s2v_key")
  /\ first_run_of (snd (__call__ Ex.merge_in_place 0 0 Ex.w_taken)) 0 = Some true
  /\ fst (__call__ Ex.merge_in_place 0 1 (snd (__call__ Ex.merge_in_place 0 0 Ex.w_taken)))
     = Raise (ValueError_E090 KDoc "_s2v").
Proof.
  assert (Hc : components Ex.w_taken !! 0%nat = Some (mkComp 1 true false))
    by (vm_compute; reflexivity).
  assert (H3 : has_extension (extensions Ex.w_taken) KToken "s2v_key" = true)
    by (vm_compute; reflexivity).
  destruct (failed_registration_is_partial_and_permanent Ex.merge_in_place 0 _ 0 1
              Ex.w_taken Hc eq_refl
              ltac:(vm_compute; reflexivity) ltac:(vm_compute; reflexivity) H3)
    as (Hr & _ & Hcs & _ & Hnext).
  split; [exact Hc|]. split; [exact H3|]. split; [exact Hr|]. split.
  - unfold first_run_of. rewrite Hcs, Hc. reflexivity.
  - rewrite Hnext. reflexivity.
Defined.


Lemma call_twice_is_call_once_witness :
  can_stamp (Ex.w_loaded false) (mkComp 1 true false) = true
  /\ __call__ Ex.merge_in_place 0 0 (Ex.w_ready false) = (Ok 0%nat, Ex.w_ready false).
Proof.
  assert (Hc : components (Ex.w_loaded false) !! 0%nat = Some (mkComp 1 true false))
    by (vm_compute; reflexivity).
  assert (Hs : can_stamp (Ex.w_loaded false) (mkComp 1 true false) = true)
    by (vm_compute; reflexivity).
  assert (Hd : docs (Ex.w_loaded false) !! 0%nat = Some (mkDoc ["the"; "dog"] None))
    by (vm_compute; reflexivity).
  split; [exact Hs|].
  exact (call_twice_is_call_once Ex.merge_in_place 0 _ 0 _ (Ex.w_loaded false)
           Hc eq_refl Hs Hd).
Defined.


Lemma lookups_after_processing_witness :
  make_spacy_key Ex.dog (Sense2Vec_make_key Ex.store) false = Ok "dog|NOUN"
  /\ in_s2v 0 Ex.dog (Ex.w_ready false) = (Ok true, Ex.w_ready false)
  /\ s2v_vec 0 Ex.dog (Ex.w_ready false) = (Ok [1; 2]%Z, Ex.w_ready false)
  /\ s2v_freq 0 Ex.dog (Ex.w_ready false) = (Ok 42%Z, Ex.w_ready false).
Proof.
  assert (Hc : components (Ex.w_loaded false) !! 0%nat = Some (mkComp 1 true false))
    by (vm_compute; reflexivity).
  assert (Hd : docs (Ex.w_loaded false) !! doc Ex.dog = Some (mkDoc ["the"; "dog"] None))
    by (vm_compute; reflexivity).
  assert (Hst : stores (Ex.w_loaded false) !! 1%nat = Some Ex.store)
    by (vm_compute; reflexivity).
  assert (Hk : make_spacy_key Ex.dog (Sense2Vec_make_key Ex.store) false = Ok "dog|NOUN")
    by (vm_compute; reflexivity).
  destruct (lookups_after_processing Ex.merge_in_place 0 _ Ex.dog _ Ex.store "dog|NOUN"
              (Ex.w_loaded false) Hc eq_refl ltac:(vm_compute; reflexivity) Hd Hst Hk)
    as (_ & H1 & H2 & H3).
  split; [exact Hk|]. split; [exact H1|]. split; [exact H2|exact H3].
Defined.

Lemma failed_load_changes_nothing_witness :
  Ex.loads [] = None
  /\ failed_load_frame (1000, 128)%Z (Ex.w_ready false)
       (from_bytes Ex.loads (1000, 128)%Z 0 [] (Ex.w_ready false))
  /\ fst (s2v_vec 0 Ex.dog
            (snd (from_disk (1000, 128)%Z 0 "nowhere" (Ex.w_ready false))))
     = fst (s2v_vec 0 Ex.dog (Ex.w_ready false)).
Proof.
  assert (Hc : components (Ex.w_ready false) !! 0%nat = Some (mkComp 1 false false))
    by (vm_compute; reflexivity).
  destruct (failed_load_changes_nothing Ex.loads (1000, 128)%Z 0 _ (Ex.w_ready false) Hc)
    as (Hb & Hd & Hsame).
  split; [reflexivity|]. split; [exact (Hb [] eq_refl)|].
  destruct (Hsame _ (Hd "nowhere" ltac:(vm_compute; reflexivity))
              Ex.dog 1%nat Ex.store (bound_dog false)) as (_ & Hv & _).
  exact Hv.
Defined.

Lemma processing_after_load_rebinds_witness :
  disk (Ex.w_ready false) !! "model" = Some Ex.model
  /\ binding_of (Ex.w_ready false) 0 = Some 1%nat
  /\ binding_of
       (snd (__call__ Ex.merge_in_place 0 0
               (snd (from_disk (1000, 128)%Z 0 "model" (Ex.w_ready false))))) 0
     = Some 2%nat.
Proof.
  assert (Hc : components (Ex.w_ready false) !! 0%nat = Some (mkComp 1 false false))
    by (vm_compute; reflexivity).
  assert (Hd : docs (Ex.w_ready false) !! 0%nat = Some (mkDoc ["the"; "dog"] (Some 1%nat)))
    by (vm_compute; reflexivity).
  assert (Hp : disk (Ex.w_ready false) !! "model" = Some Ex.model)
    by (vm_compute; reflexivity).
  destruct (processing_after_load_rebinds Ex.merge_in_place (1000, 128)%Z 0 _ 0 _
              "model" Ex.model (Ex.w_ready false) Hc eq_refl eq_refl
              ltac:(vm_compute; reflexivity) Hd Hp) as (_ & _ & Hb & _).
  split; [exact Hp|]. split; [vm_compute; reflexivity|exact Hb].
Defined.

Lemma disk_round_trip_keeps_rows_not_strings_witness :
  stores (Ex.w_ready false) !! 1%nat = Some Ex.store
  /\ stores (snd (from_disk (1000, 128)%Z 0 "copy"
                    (snd (to_disk 0 "copy" (Ex.w_ready false))))) !! 2%nat
     = Some Ex.store.
Proof.
  assert (Hc : components (Ex.w_ready false) !! 0%nat = Some (mkComp 1 false false))
    by (vm_compute; reflexivity).
  assert (Hst : stores (Ex.w_ready false) !! 1%nat = Some Ex.store)
    by (vm_compute; reflexivity).
  destruct (disk_round_trip_keeps_rows_not_strings (1000, 128)%Z 0 _ Ex.store "copy"
              (Ex.w_ready false) Hc Hst) as (_ & _ & Hnew & _).
  split; [exact Hst|exact Hnew].
Defined.

Lemma component_from_nlp_starts_empty_witness :
  fresh_registry (extensions Ex.w0) = true
  /\ in_s2v 0 Ex.dog
       (snd (__call__ Ex.merge_in_place 0 0
               (snd (from_nlp (mkVocab ["dog"]) (10, 4)%Z false Ex.w0))))
     = (Ok false,
        snd (__call__ Ex.merge_in_place 0 0
               (snd (from_nlp (mkVocab ["dog"]) (10, 4)%Z false Ex.w0)))).
Proof.
  assert (Hf : fresh_registry (extensions Ex.w0) = true) by (vm_compute; reflexivity).
  assert (Hd : docs Ex.w0 !! doc Ex.dog = Some (mkDoc ["the"; "dog"] None))
    by (vm_compute; reflexivity).
  destruct (component_from_nlp_starts_empty Ex.merge_in_place (mkVocab ["dog"])
              (10, 4)%Z Ex.dog _ "dog|NOUN" Ex.w0 Hf Hd ltac:(vm_compute; reflexivity))
    as (_ & _ & _ & _ & Hin & _).
  split; [exact Hf|exact Hin].
Defined.

Lemma other_senses_never_answers_witness :
  has_extension (extensions (Ex.w_ready false)) (kind_of Ex.dog) "_s2v" = false
  /\ s2v_other_senses Ex.get_other_senses 0 Ex.dog (Ex.w_ready false)
     = (Raise (AttributeError_E046 KToken "_s2v"), Ex.w_ready false).
Proof.
  assert (Hx : has_extension (extensions (Ex.w_ready false)) (kind_of Ex.dog) "_s2v"
               = false) by (vm_compute; reflexivity).
  destruct (other_senses_never_answers Ex.get_other_senses 0 Ex.dog (Ex.w_ready false) Hx)
    as [_ Hraise].
  split; [exact Hx|].
  exact (Hraise "dog|NOUN" ltac:(vm_compute; reflexivity)).
Defined.

Lemma to_bytes_after_from_bytes_witness :
  Ex.loads [Byte.x01] = Some Ex.model
  /\ fst (to_bytes Ex.dumps 0
            (snd (from_bytes Ex.loads (1000, 128)%Z 0 [Byte.x01] (Ex.w_ready false))))
     = Ok [Byte.x00].
Proof.
  assert (Hc : components (Ex.w_ready false) !! 0%nat = Some (mkComp 1 false false))
    by (vm_compute; reflexivity).
  split; [reflexivity|].
  rewrite (to_bytes_after_from_bytes Ex.dumps Ex.loads (1000, 128)%Z 0 _ [Byte.x01]
             Ex.model (Ex.w_ready false) Hc eq_refl).
  reflexivity.
Defined.
